(** * A styled-text renderer on a 2D canvas: model and properties

    This development embeds [src/App.tsx] (the component [TextDecoratorApp]):
    the React state cells, the two render routines [drawText] (preview) and
    [downloadImage] (export), the preset operations [savePreset] and
    [loadPreset], and the font-list construction inside [loadLocalFonts].

    Numbers.  A JavaScript [number] is an IEEE-754 double.  Here it is read
    as a real number: every arithmetic operation is exact.  The only inexact
    host values the render routines touch, [Math.PI], [Math.cos] and
    [Math.sin], are kept as parameters of the model so that statements about
    angles can carry an explicit error budget.

    Canvas.  A [CanvasRenderingContext2D] is a drawing state (font, styles,
    shadow, line width, ...) plus the surface it has painted.  The surface is
    kept as the sequence of paint operations issued so far, each with the
    drawing state in force when it was issued; the pixels are a function of
    that sequence.

    Colours.  Colour strings are opaque values handed to the host.  The
    render routines are embedded twice: once taking every colour as
    written, which is what the host does with the strings it parses, and
    once with the host's parser as a parameter, where an assignment of a
    string that does not parse is ignored and [addColorStop] throws. *)

From Stdlib Require Import Reals Lra ZArith List String Bool.
From Stdlib Require Import Sorting.Sorted Sorting.Permutation.
From Stdlib Require Import DecimalString OrderedTypeEx Lia Floats.
From Stdlib Require DecimalPos DecimalZ.
Import ListNotations.

Set Implicit Arguments.
Local Open Scope string_scope.
Local Open Scope R_scope.

(** ** Numbers *)

Abbreviation number := R.

(** [x > 0] as a JavaScript condition. *)
Definition gt0 (x : number) : bool :=
  if Rlt_dec 0 x then true else false.

(** ** The 2D canvas context *)

Module Canvas2D.

(** The value of [ctx.font], written in the source as the template
    [`${size}px ${family}`]. *)
Record Font := { font_px : number; font_family : string }.

(** A CSS colour: a string the program passes through, or the template
    [`rgba(r, g, b, ${a})`]. *)
Inductive Color :=
| Css (s : string)
| Rgba (r g b : Z) (a : number).

(** The object returned by [createLinearGradient]; [addColorStop] appends
    to [colorStops]. *)
Record Gradient := {
  gx0 : number; gy0 : number; gx1 : number; gy1 : number;
  colorStops : list (number * string)
}.

Inductive Style :=
| Solid (c : Color)
| Linear (g : Gradient).

Record State := {
  font : Font;
  textAlign : string;
  textBaseline : string;
  lineJoin : string;
  miterLimit : number;
  shadowColor : Color;
  shadowBlur : number;
  shadowOffsetX : number;
  shadowOffsetY : number;
  fillStyle : Style;
  strokeStyle : Style;
  lineWidth : number
}.

(** One paint operation, with the drawing state it was issued under. *)
Inductive Op :=
| ClearRect (x y w h : number)
| FillText (st : State) (text : string) (x y : number)
| StrokeText (st : State) (text : string) (x y : number).

Record Context := { state : State; painted : list Op }.

(** The state of a context nobody has touched yet. *)
Definition fresh_state : State :=
  {| font := {| font_px := 10; font_family := "sans-serif" |};
     textAlign := "start"; textBaseline := "alphabetic";
     lineJoin := "miter"; miterLimit := 10;
     shadowColor := Rgba 0 0 0 0; shadowBlur := 0;
     shadowOffsetX := 0; shadowOffsetY := 0;
     fillStyle := Solid (Css "#000000"); strokeStyle := Solid (Css "#000000");
     lineWidth := 1 |}.

Definition fresh : Context := {| state := fresh_state; painted := [] |}.

(** Field assignments [ctx.f = v]. *)
Definition with_font (v : Font) (s : State) : State :=
  {| font := v; textAlign := textAlign s; textBaseline := textBaseline s;
     lineJoin := lineJoin s; miterLimit := miterLimit s;
     shadowColor := shadowColor s; shadowBlur := shadowBlur s;
     shadowOffsetX := shadowOffsetX s; shadowOffsetY := shadowOffsetY s;
     fillStyle := fillStyle s; strokeStyle := strokeStyle s;
     lineWidth := lineWidth s |}.
Definition with_textAlign (v : string) (s : State) : State :=
  {| font := font s; textAlign := v; textBaseline := textBaseline s;
     lineJoin := lineJoin s; miterLimit := miterLimit s;
     shadowColor := shadowColor s; shadowBlur := shadowBlur s;
     shadowOffsetX := shadowOffsetX s; shadowOffsetY := shadowOffsetY s;
     fillStyle := fillStyle s; strokeStyle := strokeStyle s;
     lineWidth := lineWidth s |}.
Definition with_textBaseline (v : string) (s : State) : State :=
  {| font := font s; textAlign := textAlign s; textBaseline := v;
     lineJoin := lineJoin s; miterLimit := miterLimit s;
     shadowColor := shadowColor s; shadowBlur := shadowBlur s;
     shadowOffsetX := shadowOffsetX s; shadowOffsetY := shadowOffsetY s;
     fillStyle := fillStyle s; strokeStyle := strokeStyle s;
     lineWidth := lineWidth s |}.
Definition with_lineJoin (v : string) (s : State) : State :=
  {| font := font s; textAlign := textAlign s;
     textBaseline := textBaseline s; lineJoin := v;
     miterLimit := miterLimit s; shadowColor := shadowColor s;
     shadowBlur := shadowBlur s; shadowOffsetX := shadowOffsetX s;
     shadowOffsetY := shadowOffsetY s; fillStyle := fillStyle s;
     strokeStyle := strokeStyle s; lineWidth := lineWidth s |}.
Definition with_miterLimit (v : number) (s : State) : State :=
  {| font := font s; textAlign := textAlign s;
     textBaseline := textBaseline s; lineJoin := lineJoin s; miterLimit := v;
     shadowColor := shadowColor s; shadowBlur := shadowBlur s;
     shadowOffsetX := shadowOffsetX s; shadowOffsetY := shadowOffsetY s;
     fillStyle := fillStyle s; strokeStyle := strokeStyle s;
     lineWidth := lineWidth s |}.
Definition with_shadowColor (v : Color) (s : State) : State :=
  {| font := font s; textAlign := textAlign s;
     textBaseline := textBaseline s; lineJoin := lineJoin s;
     miterLimit := miterLimit s; shadowColor := v;
     shadowBlur := shadowBlur s; shadowOffsetX := shadowOffsetX s;
     shadowOffsetY := shadowOffsetY s; fillStyle := fillStyle s;
     strokeStyle := strokeStyle s; lineWidth := lineWidth s |}.
Definition with_shadowBlur (v : number) (s : State) : State :=
  {| font := font s; textAlign := textAlign s;
     textBaseline := textBaseline s; lineJoin := lineJoin s;
     miterLimit := miterLimit s; shadowColor := shadowColor s;
     shadowBlur := v; shadowOffsetX := shadowOffsetX s;
     shadowOffsetY := shadowOffsetY s; fillStyle := fillStyle s;
     strokeStyle := strokeStyle s; lineWidth := lineWidth s |}.
Definition with_shadowOffsetX (v : number) (s : State) : State :=
  {| font := font s; textAlign := textAlign s;
     textBaseline := textBaseline s; lineJoin := lineJoin s;
     miterLimit := miterLimit s; shadowColor := shadowColor s;
     shadowBlur := shadowBlur s; shadowOffsetX := v;
     shadowOffsetY := shadowOffsetY s; fillStyle := fillStyle s;
     strokeStyle := strokeStyle s; lineWidth := lineWidth s |}.
Definition with_shadowOffsetY (v : number) (s : State) : State :=
  {| font := font s; textAlign := textAlign s;
     textBaseline := textBaseline s; lineJoin := lineJoin s;
     miterLimit := miterLimit s; shadowColor := shadowColor s;
     shadowBlur := shadowBlur s; shadowOffsetX := shadowOffsetX s;
     shadowOffsetY := v; fillStyle := fillStyle s;
     strokeStyle := strokeStyle s; lineWidth := lineWidth s |}.
Definition with_fillStyle (v : Style) (s : State) : State :=
  {| font := font s; textAlign := textAlign s;
     textBaseline := textBaseline s; lineJoin := lineJoin s;
     miterLimit := miterLimit s; shadowColor := shadowColor s;
     shadowBlur := shadowBlur s; shadowOffsetX := shadowOffsetX s;
     shadowOffsetY := shadowOffsetY s; fillStyle := v;
     strokeStyle := strokeStyle s; lineWidth := lineWidth s |}.
Definition with_strokeStyle (v : Style) (s : State) : State :=
  {| font := font s; textAlign := textAlign s;
     textBaseline := textBaseline s; lineJoin := lineJoin s;
     miterLimit := miterLimit s; shadowColor := shadowColor s;
     shadowBlur := shadowBlur s; shadowOffsetX := shadowOffsetX s;
     shadowOffsetY := shadowOffsetY s; fillStyle := fillStyle s;
     strokeStyle := v; lineWidth := lineWidth s |}.
Definition with_lineWidth (v : number) (s : State) : State :=
  {| font := font s; textAlign := textAlign s;
     textBaseline := textBaseline s; lineJoin := lineJoin s;
     miterLimit := miterLimit s; shadowColor := shadowColor s;
     shadowBlur := shadowBlur s; shadowOffsetX := shadowOffsetX s;
     shadowOffsetY := shadowOffsetY s; fillStyle := fillStyle s;
     strokeStyle := strokeStyle s; lineWidth := v |}.

(** Statements over a context, and their sequencing. *)
Definition Cmd := Context -> Context.

Definition skip : Cmd := fun ctx => ctx.
Definition seq (c1 c2 : Cmd) : Cmd := fun ctx => c2 (c1 ctx).
Definition when (b : bool) (c : Cmd) : Cmd := if b then c else skip.

(** A property assignment that takes effect.  For the properties that hold
    a colour the host lets it take effect when the colour parses; see
    [host_set_fillStyle] and its like for the host's own behaviour. *)
Definition assign (f : State -> State) : Cmd :=
  fun ctx => {| state := f (state ctx); painted := painted ctx |}.

Definition paint (op : State -> Op) : Cmd :=
  fun ctx => {| state := state ctx;
                painted := painted ctx ++ [op (state ctx)] |}.

Definition clearRect (x y w h : number) : Cmd :=
  paint (fun _ => ClearRect x y w h).
Definition fillText (text : string) (x y : number) : Cmd :=
  paint (fun st => FillText st text x y).
Definition strokeText (text : string) (x y : number) : Cmd :=
  paint (fun st => StrokeText st text x y).

(** [ctx.f = v] as a statement. *)
Definition set_font (v : Font) : Cmd := assign (with_font v).
Definition set_textAlign (v : string) : Cmd := assign (with_textAlign v).
Definition set_textBaseline (v : string) : Cmd := assign (with_textBaseline v).
Definition set_lineJoin (v : string) : Cmd := assign (with_lineJoin v).
Definition set_miterLimit (v : number) : Cmd := assign (with_miterLimit v).
Definition set_shadowColor (v : Color) : Cmd := assign (with_shadowColor v).
Definition set_shadowBlur (v : number) : Cmd := assign (with_shadowBlur v).
Definition set_shadowOffsetX (v : number) : Cmd := assign (with_shadowOffsetX v).
Definition set_shadowOffsetY (v : number) : Cmd := assign (with_shadowOffsetY v).
Definition set_fillStyle (v : Style) : Cmd := assign (with_fillStyle v).
Definition set_strokeStyle (v : Style) : Cmd := assign (with_strokeStyle v).
Definition set_lineWidth (v : number) : Cmd := assign (with_lineWidth v).

Definition createLinearGradient (x0 y0 x1 y1 : number) : Gradient :=
  {| gx0 := x0; gy0 := y0; gx1 := x1; gy1 := y1; colorStops := [] |}.

(** The gradient with one more stop: what [addColorStop] makes of the
    gradient when the colour parses.  When it does not the host throws; see
    [host_addColorStop]. *)
Definition addColorStop (offset : number) (color : string) (g : Gradient)
  : Gradient :=
  {| gx0 := gx0 g; gy0 := gy0 g; gx1 := gx1 g; gy1 := gy1 g;
     colorStops := colorStops g ++ [(offset, color)] |}.

End Canvas2D.

Declare Scope cmd_scope.
Delimit Scope cmd_scope with cmd.
Bind Scope cmd_scope with Canvas2D.Cmd.
Notation "c1 ;; c2" := (Canvas2D.seq c1 c2)
  (at level 61, left associativity) : cmd_scope.

(** An [HTMLCanvasElement]: integer dimensions, and the 2D context that
    [getContext('2d')] returns ([None] when it returns [null]). *)
Record Canvas := {
  width : Z;
  height : Z;
  context2d : option Canvas2D.Context
}.

Definition with_context (ctx : Canvas2D.Context) (c : Canvas) : Canvas :=
  {| width := width c; height := height c; context2d := Some ctx |}.

(** ** Application state *)

Inductive TextColorType := solid | gradient.

(** ['preset' | 'local'] *)
Inductive FontSource := preset_fonts | local_fonts.

Record LocalFont := {
  family : string;
  fullName : string;
  postscriptName : string;
  style : string
}.

(** An entry of the curated font list: the name shown and the
    [font-family] handed to [ctx.font]. *)
Module FontItem.
Record t := { label : string; family : string }.
End FontItem.

Definition presetFonts : list FontItem.t :=
  [ {| FontItem.label := "Noto Sans JP";
       FontItem.family :=
         "MyNotoJP, 'Noto Sans JP', 'Hiragino Kaku Gothic ProN', Meiryo, sans-serif" |};
    {| FontItem.label := "BIZ UDPゴシック";
       FontItem.family :=
         "MyBIZUDPGothic, 'BIZ UDPGothic', 'Hiragino Kaku Gothic ProN', Meiryo, sans-serif" |};
    {| FontItem.label := "Source Han Sans JP";
       FontItem.family :=
         "MySourceHanSansJP, 'Source Han Sans JP', 'Hiragino Kaku Gothic ProN', Meiryo, sans-serif" |};
    {| FontItem.label := "Arial Black"; FontItem.family := "Arial Black" |};
    {| FontItem.label := "Impact"; FontItem.family := "Impact" |};
    {| FontItem.label := "Arial"; FontItem.family := "Arial" |};
    {| FontItem.label := "Times New Roman";
       FontItem.family := "Times New Roman" |};
    {| FontItem.label := "Courier New"; FontItem.family := "Courier New" |};
    {| FontItem.label := "Comic Sans MS";
       FontItem.family := "Comic Sans MS" |} ].

(** The [config] object of a preset, as [loadPreset] reads it: every
    property is either defined or [undefined].  The declared type
    [PresetConfig] makes five of them mandatory, see [declared]. *)
Module PresetConfig.
Record t := {
  textColor : option string;
  textColorType : option TextColorType;
  textGradientStart : option string;
  textGradientEnd : option string;
  textGradientAngle : option number;
  border1Color : option string;
  border1Width : option number;
  border2Color : option string;
  border2Width : option number;
  shadowEnabled : option bool;
  shadowOffsetX : option number;
  shadowOffsetY : option number;
  shadowBlur : option number;
  shadowOpacity : option number
}.

Definition is_defined {A} (o : option A) : bool :=
  match o with Some _ => true | None => false end.

(** The properties the type declares without [?]. *)
Definition declared (c : t) : bool :=
  is_defined (textColorType c) && is_defined (border1Color c)
  && is_defined (border1Width c) && is_defined (border2Color c)
  && is_defined (border2Width c).
End PresetConfig.

Record Preset := { name : string; config : PresetConfig.t }.

(** The [useState] cells of [TextDecoratorApp]. *)
Record AppState := {
  text : string;
  fontSize : number;
  fontFamily : string;
  localFontsAvailable : bool;
  localFonts : list LocalFont;
  fontSource : FontSource;
  isLoadingFonts : bool;
  textColorType : TextColorType;
  textColor : string;
  textGradientStart : string;
  textGradientEnd : string;
  textGradientAngle : number;
  border1Color : string;
  border1Width : number;
  border2Color : string;
  border2Width : number;
  shadowEnabled : bool;
  shadowOffsetX : number;
  shadowOffsetY : number;
  shadowBlur : number;
  shadowOpacity : number;
  activeTab : string;
  presets : list Preset
}.

(** The state setters. *)
Definition setText (v : string) (s : AppState) : AppState :=
  {| text := v; fontSize := fontSize s; fontFamily := fontFamily s;
     localFontsAvailable := localFontsAvailable s;
     localFonts := localFonts s; fontSource := fontSource s;
     isLoadingFonts := isLoadingFonts s; textColorType := textColorType s;
     textColor := textColor s; textGradientStart := textGradientStart s;
     textGradientEnd := textGradientEnd s;
     textGradientAngle := textGradientAngle s;
     border1Color := border1Color s; border1Width := border1Width s;
     border2Color := border2Color s; border2Width := border2Width s;
     shadowEnabled := shadowEnabled s; shadowOffsetX := shadowOffsetX s;
     shadowOffsetY := shadowOffsetY s; shadowBlur := shadowBlur s;
     shadowOpacity := shadowOpacity s; activeTab := activeTab s;
     presets := presets s |}.
Definition setFontSize (v : number) (s : AppState) : AppState :=
  {| text := text s; fontSize := v; fontFamily := fontFamily s;
     localFontsAvailable := localFontsAvailable s;
     localFonts := localFonts s; fontSource := fontSource s;
     isLoadingFonts := isLoadingFonts s; textColorType := textColorType s;
     textColor := textColor s; textGradientStart := textGradientStart s;
     textGradientEnd := textGradientEnd s;
     textGradientAngle := textGradientAngle s;
     border1Color := border1Color s; border1Width := border1Width s;
     border2Color := border2Color s; border2Width := border2Width s;
     shadowEnabled := shadowEnabled s; shadowOffsetX := shadowOffsetX s;
     shadowOffsetY := shadowOffsetY s; shadowBlur := shadowBlur s;
     shadowOpacity := shadowOpacity s; activeTab := activeTab s;
     presets := presets s |}.
Definition setFontFamily (v : string) (s : AppState) : AppState :=
  {| text := text s; fontSize := fontSize s; fontFamily := v;
     localFontsAvailable := localFontsAvailable s;
     localFonts := localFonts s; fontSource := fontSource s;
     isLoadingFonts := isLoadingFonts s; textColorType := textColorType s;
     textColor := textColor s; textGradientStart := textGradientStart s;
     textGradientEnd := textGradientEnd s;
     textGradientAngle := textGradientAngle s;
     border1Color := border1Color s; border1Width := border1Width s;
     border2Color := border2Color s; border2Width := border2Width s;
     shadowEnabled := shadowEnabled s; shadowOffsetX := shadowOffsetX s;
     shadowOffsetY := shadowOffsetY s; shadowBlur := shadowBlur s;
     shadowOpacity := shadowOpacity s; activeTab := activeTab s;
     presets := presets s |}.
Definition setLocalFontsAvailable (v : bool) (s : AppState) : AppState :=
  {| text := text s; fontSize := fontSize s; fontFamily := fontFamily s;
     localFontsAvailable := v; localFonts := localFonts s;
     fontSource := fontSource s; isLoadingFonts := isLoadingFonts s;
     textColorType := textColorType s; textColor := textColor s;
     textGradientStart := textGradientStart s;
     textGradientEnd := textGradientEnd s;
     textGradientAngle := textGradientAngle s;
     border1Color := border1Color s; border1Width := border1Width s;
     border2Color := border2Color s; border2Width := border2Width s;
     shadowEnabled := shadowEnabled s; shadowOffsetX := shadowOffsetX s;
     shadowOffsetY := shadowOffsetY s; shadowBlur := shadowBlur s;
     shadowOpacity := shadowOpacity s; activeTab := activeTab s;
     presets := presets s |}.
Definition setLocalFonts (v : list LocalFont) (s : AppState) : AppState :=
  {| text := text s; fontSize := fontSize s; fontFamily := fontFamily s;
     localFontsAvailable := localFontsAvailable s; localFonts := v;
     fontSource := fontSource s; isLoadingFonts := isLoadingFonts s;
     textColorType := textColorType s; textColor := textColor s;
     textGradientStart := textGradientStart s;
     textGradientEnd := textGradientEnd s;
     textGradientAngle := textGradientAngle s;
     border1Color := border1Color s; border1Width := border1Width s;
     border2Color := border2Color s; border2Width := border2Width s;
     shadowEnabled := shadowEnabled s; shadowOffsetX := shadowOffsetX s;
     shadowOffsetY := shadowOffsetY s; shadowBlur := shadowBlur s;
     shadowOpacity := shadowOpacity s; activeTab := activeTab s;
     presets := presets s |}.
Definition setFontSource (v : FontSource) (s : AppState) : AppState :=
  {| text := text s; fontSize := fontSize s; fontFamily := fontFamily s;
     localFontsAvailable := localFontsAvailable s;
     localFonts := localFonts s; fontSource := v;
     isLoadingFonts := isLoadingFonts s; textColorType := textColorType s;
     textColor := textColor s; textGradientStart := textGradientStart s;
     textGradientEnd := textGradientEnd s;
     textGradientAngle := textGradientAngle s;
     border1Color := border1Color s; border1Width := border1Width s;
     border2Color := border2Color s; border2Width := border2Width s;
     shadowEnabled := shadowEnabled s; shadowOffsetX := shadowOffsetX s;
     shadowOffsetY := shadowOffsetY s; shadowBlur := shadowBlur s;
     shadowOpacity := shadowOpacity s; activeTab := activeTab s;
     presets := presets s |}.
Definition setIsLoadingFonts (v : bool) (s : AppState) : AppState :=
  {| text := text s; fontSize := fontSize s; fontFamily := fontFamily s;
     localFontsAvailable := localFontsAvailable s;
     localFonts := localFonts s; fontSource := fontSource s;
     isLoadingFonts := v; textColorType := textColorType s;
     textColor := textColor s; textGradientStart := textGradientStart s;
     textGradientEnd := textGradientEnd s;
     textGradientAngle := textGradientAngle s;
     border1Color := border1Color s; border1Width := border1Width s;
     border2Color := border2Color s; border2Width := border2Width s;
     shadowEnabled := shadowEnabled s; shadowOffsetX := shadowOffsetX s;
     shadowOffsetY := shadowOffsetY s; shadowBlur := shadowBlur s;
     shadowOpacity := shadowOpacity s; activeTab := activeTab s;
     presets := presets s |}.
Definition setTextColorType (v : TextColorType) (s : AppState) : AppState :=
  {| text := text s; fontSize := fontSize s; fontFamily := fontFamily s;
     localFontsAvailable := localFontsAvailable s;
     localFonts := localFonts s; fontSource := fontSource s;
     isLoadingFonts := isLoadingFonts s; textColorType := v;
     textColor := textColor s; textGradientStart := textGradientStart s;
     textGradientEnd := textGradientEnd s;
     textGradientAngle := textGradientAngle s;
     border1Color := border1Color s; border1Width := border1Width s;
     border2Color := border2Color s; border2Width := border2Width s;
     shadowEnabled := shadowEnabled s; shadowOffsetX := shadowOffsetX s;
     shadowOffsetY := shadowOffsetY s; shadowBlur := shadowBlur s;
     shadowOpacity := shadowOpacity s; activeTab := activeTab s;
     presets := presets s |}.
Definition setTextColor (v : string) (s : AppState) : AppState :=
  {| text := text s; fontSize := fontSize s; fontFamily := fontFamily s;
     localFontsAvailable := localFontsAvailable s;
     localFonts := localFonts s; fontSource := fontSource s;
     isLoadingFonts := isLoadingFonts s; textColorType := textColorType s;
     textColor := v; textGradientStart := textGradientStart s;
     textGradientEnd := textGradientEnd s;
     textGradientAngle := textGradientAngle s;
     border1Color := border1Color s; border1Width := border1Width s;
     border2Color := border2Color s; border2Width := border2Width s;
     shadowEnabled := shadowEnabled s; shadowOffsetX := shadowOffsetX s;
     shadowOffsetY := shadowOffsetY s; shadowBlur := shadowBlur s;
     shadowOpacity := shadowOpacity s; activeTab := activeTab s;
     presets := presets s |}.
Definition setTextGradientStart (v : string) (s : AppState) : AppState :=
  {| text := text s; fontSize := fontSize s; fontFamily := fontFamily s;
     localFontsAvailable := localFontsAvailable s;
     localFonts := localFonts s; fontSource := fontSource s;
     isLoadingFonts := isLoadingFonts s; textColorType := textColorType s;
     textColor := textColor s; textGradientStart := v;
     textGradientEnd := textGradientEnd s;
     textGradientAngle := textGradientAngle s;
     border1Color := border1Color s; border1Width := border1Width s;
     border2Color := border2Color s; border2Width := border2Width s;
     shadowEnabled := shadowEnabled s; shadowOffsetX := shadowOffsetX s;
     shadowOffsetY := shadowOffsetY s; shadowBlur := shadowBlur s;
     shadowOpacity := shadowOpacity s; activeTab := activeTab s;
     presets := presets s |}.
Definition setTextGradientEnd (v : string) (s : AppState) : AppState :=
  {| text := text s; fontSize := fontSize s; fontFamily := fontFamily s;
     localFontsAvailable := localFontsAvailable s;
     localFonts := localFonts s; fontSource := fontSource s;
     isLoadingFonts := isLoadingFonts s; textColorType := textColorType s;
     textColor := textColor s; textGradientStart := textGradientStart s;
     textGradientEnd := v; textGradientAngle := textGradientAngle s;
     border1Color := border1Color s; border1Width := border1Width s;
     border2Color := border2Color s; border2Width := border2Width s;
     shadowEnabled := shadowEnabled s; shadowOffsetX := shadowOffsetX s;
     shadowOffsetY := shadowOffsetY s; shadowBlur := shadowBlur s;
     shadowOpacity := shadowOpacity s; activeTab := activeTab s;
     presets := presets s |}.
Definition setTextGradientAngle (v : number) (s : AppState) : AppState :=
  {| text := text s; fontSize := fontSize s; fontFamily := fontFamily s;
     localFontsAvailable := localFontsAvailable s;
     localFonts := localFonts s; fontSource := fontSource s;
     isLoadingFonts := isLoadingFonts s; textColorType := textColorType s;
     textColor := textColor s; textGradientStart := textGradientStart s;
     textGradientEnd := textGradientEnd s; textGradientAngle := v;
     border1Color := border1Color s; border1Width := border1Width s;
     border2Color := border2Color s; border2Width := border2Width s;
     shadowEnabled := shadowEnabled s; shadowOffsetX := shadowOffsetX s;
     shadowOffsetY := shadowOffsetY s; shadowBlur := shadowBlur s;
     shadowOpacity := shadowOpacity s; activeTab := activeTab s;
     presets := presets s |}.
Definition setBorder1Color (v : string) (s : AppState) : AppState :=
  {| text := text s; fontSize := fontSize s; fontFamily := fontFamily s;
     localFontsAvailable := localFontsAvailable s;
     localFonts := localFonts s; fontSource := fontSource s;
     isLoadingFonts := isLoadingFonts s; textColorType := textColorType s;
     textColor := textColor s; textGradientStart := textGradientStart s;
     textGradientEnd := textGradientEnd s;
     textGradientAngle := textGradientAngle s; border1Color := v;
     border1Width := border1Width s; border2Color := border2Color s;
     border2Width := border2Width s; shadowEnabled := shadowEnabled s;
     shadowOffsetX := shadowOffsetX s; shadowOffsetY := shadowOffsetY s;
     shadowBlur := shadowBlur s; shadowOpacity := shadowOpacity s;
     activeTab := activeTab s; presets := presets s |}.
Definition setBorder1Width (v : number) (s : AppState) : AppState :=
  {| text := text s; fontSize := fontSize s; fontFamily := fontFamily s;
     localFontsAvailable := localFontsAvailable s;
     localFonts := localFonts s; fontSource := fontSource s;
     isLoadingFonts := isLoadingFonts s; textColorType := textColorType s;
     textColor := textColor s; textGradientStart := textGradientStart s;
     textGradientEnd := textGradientEnd s;
     textGradientAngle := textGradientAngle s;
     border1Color := border1Color s; border1Width := v;
     border2Color := border2Color s; border2Width := border2Width s;
     shadowEnabled := shadowEnabled s; shadowOffsetX := shadowOffsetX s;
     shadowOffsetY := shadowOffsetY s; shadowBlur := shadowBlur s;
     shadowOpacity := shadowOpacity s; activeTab := activeTab s;
     presets := presets s |}.
Definition setBorder2Color (v : string) (s : AppState) : AppState :=
  {| text := text s; fontSize := fontSize s; fontFamily := fontFamily s;
     localFontsAvailable := localFontsAvailable s;
     localFonts := localFonts s; fontSource := fontSource s;
     isLoadingFonts := isLoadingFonts s; textColorType := textColorType s;
     textColor := textColor s; textGradientStart := textGradientStart s;
     textGradientEnd := textGradientEnd s;
     textGradientAngle := textGradientAngle s;
     border1Color := border1Color s; border1Width := border1Width s;
     border2Color := v; border2Width := border2Width s;
     shadowEnabled := shadowEnabled s; shadowOffsetX := shadowOffsetX s;
     shadowOffsetY := shadowOffsetY s; shadowBlur := shadowBlur s;
     shadowOpacity := shadowOpacity s; activeTab := activeTab s;
     presets := presets s |}.
Definition setBorder2Width (v : number) (s : AppState) : AppState :=
  {| text := text s; fontSize := fontSize s; fontFamily := fontFamily s;
     localFontsAvailable := localFontsAvailable s;
     localFonts := localFonts s; fontSource := fontSource s;
     isLoadingFonts := isLoadingFonts s; textColorType := textColorType s;
     textColor := textColor s; textGradientStart := textGradientStart s;
     textGradientEnd := textGradientEnd s;
     textGradientAngle := textGradientAngle s;
     border1Color := border1Color s; border1Width := border1Width s;
     border2Color := border2Color s; border2Width := v;
     shadowEnabled := shadowEnabled s; shadowOffsetX := shadowOffsetX s;
     shadowOffsetY := shadowOffsetY s; shadowBlur := shadowBlur s;
     shadowOpacity := shadowOpacity s; activeTab := activeTab s;
     presets := presets s |}.
Definition setShadowEnabled (v : bool) (s : AppState) : AppState :=
  {| text := text s; fontSize := fontSize s; fontFamily := fontFamily s;
     localFontsAvailable := localFontsAvailable s;
     localFonts := localFonts s; fontSource := fontSource s;
     isLoadingFonts := isLoadingFonts s; textColorType := textColorType s;
     textColor := textColor s; textGradientStart := textGradientStart s;
     textGradientEnd := textGradientEnd s;
     textGradientAngle := textGradientAngle s;
     border1Color := border1Color s; border1Width := border1Width s;
     border2Color := border2Color s; border2Width := border2Width s;
     shadowEnabled := v; shadowOffsetX := shadowOffsetX s;
     shadowOffsetY := shadowOffsetY s; shadowBlur := shadowBlur s;
     shadowOpacity := shadowOpacity s; activeTab := activeTab s;
     presets := presets s |}.
Definition setShadowOffsetX (v : number) (s : AppState) : AppState :=
  {| text := text s; fontSize := fontSize s; fontFamily := fontFamily s;
     localFontsAvailable := localFontsAvailable s;
     localFonts := localFonts s; fontSource := fontSource s;
     isLoadingFonts := isLoadingFonts s; textColorType := textColorType s;
     textColor := textColor s; textGradientStart := textGradientStart s;
     textGradientEnd := textGradientEnd s;
     textGradientAngle := textGradientAngle s;
     border1Color := border1Color s; border1Width := border1Width s;
     border2Color := border2Color s; border2Width := border2Width s;
     shadowEnabled := shadowEnabled s; shadowOffsetX := v;
     shadowOffsetY := shadowOffsetY s; shadowBlur := shadowBlur s;
     shadowOpacity := shadowOpacity s; activeTab := activeTab s;
     presets := presets s |}.
Definition setShadowOffsetY (v : number) (s : AppState) : AppState :=
  {| text := text s; fontSize := fontSize s; fontFamily := fontFamily s;
     localFontsAvailable := localFontsAvailable s;
     localFonts := localFonts s; fontSource := fontSource s;
     isLoadingFonts := isLoadingFonts s; textColorType := textColorType s;
     textColor := textColor s; textGradientStart := textGradientStart s;
     textGradientEnd := textGradientEnd s;
     textGradientAngle := textGradientAngle s;
     border1Color := border1Color s; border1Width := border1Width s;
     border2Color := border2Color s; border2Width := border2Width s;
     shadowEnabled := shadowEnabled s; shadowOffsetX := shadowOffsetX s;
     shadowOffsetY := v; shadowBlur := shadowBlur s;
     shadowOpacity := shadowOpacity s; activeTab := activeTab s;
     presets := presets s |}.
Definition setShadowBlur (v : number) (s : AppState) : AppState :=
  {| text := text s; fontSize := fontSize s; fontFamily := fontFamily s;
     localFontsAvailable := localFontsAvailable s;
     localFonts := localFonts s; fontSource := fontSource s;
     isLoadingFonts := isLoadingFonts s; textColorType := textColorType s;
     textColor := textColor s; textGradientStart := textGradientStart s;
     textGradientEnd := textGradientEnd s;
     textGradientAngle := textGradientAngle s;
     border1Color := border1Color s; border1Width := border1Width s;
     border2Color := border2Color s; border2Width := border2Width s;
     shadowEnabled := shadowEnabled s; shadowOffsetX := shadowOffsetX s;
     shadowOffsetY := shadowOffsetY s; shadowBlur := v;
     shadowOpacity := shadowOpacity s; activeTab := activeTab s;
     presets := presets s |}.
Definition setShadowOpacity (v : number) (s : AppState) : AppState :=
  {| text := text s; fontSize := fontSize s; fontFamily := fontFamily s;
     localFontsAvailable := localFontsAvailable s;
     localFonts := localFonts s; fontSource := fontSource s;
     isLoadingFonts := isLoadingFonts s; textColorType := textColorType s;
     textColor := textColor s; textGradientStart := textGradientStart s;
     textGradientEnd := textGradientEnd s;
     textGradientAngle := textGradientAngle s;
     border1Color := border1Color s; border1Width := border1Width s;
     border2Color := border2Color s; border2Width := border2Width s;
     shadowEnabled := shadowEnabled s; shadowOffsetX := shadowOffsetX s;
     shadowOffsetY := shadowOffsetY s; shadowBlur := shadowBlur s;
     shadowOpacity := v; activeTab := activeTab s; presets := presets s |}.
Definition setActiveTab (v : string) (s : AppState) : AppState :=
  {| text := text s; fontSize := fontSize s; fontFamily := fontFamily s;
     localFontsAvailable := localFontsAvailable s;
     localFonts := localFonts s; fontSource := fontSource s;
     isLoadingFonts := isLoadingFonts s; textColorType := textColorType s;
     textColor := textColor s; textGradientStart := textGradientStart s;
     textGradientEnd := textGradientEnd s;
     textGradientAngle := textGradientAngle s;
     border1Color := border1Color s; border1Width := border1Width s;
     border2Color := border2Color s; border2Width := border2Width s;
     shadowEnabled := shadowEnabled s; shadowOffsetX := shadowOffsetX s;
     shadowOffsetY := shadowOffsetY s; shadowBlur := shadowBlur s;
     shadowOpacity := shadowOpacity s; activeTab := v;
     presets := presets s |}.
Definition setPresets (v : list Preset) (s : AppState) : AppState :=
  {| text := text s; fontSize := fontSize s; fontFamily := fontFamily s;
     localFontsAvailable := localFontsAvailable s;
     localFonts := localFonts s; fontSource := fontSource s;
     isLoadingFonts := isLoadingFonts s; textColorType := textColorType s;
     textColor := textColor s; textGradientStart := textGradientStart s;
     textGradientEnd := textGradientEnd s;
     textGradientAngle := textGradientAngle s;
     border1Color := border1Color s; border1Width := border1Width s;
     border2Color := border2Color s; border2Width := border2Width s;
     shadowEnabled := shadowEnabled s; shadowOffsetX := shadowOffsetX s;
     shadowOffsetY := shadowOffsetY s; shadowBlur := shadowBlur s;
     shadowOpacity := shadowOpacity s; activeTab := activeTab s;
     presets := v |}.

(** ** Presets *)

(** [prompt] is what the dialog returned: [None] for [null].  The guard
    [if (!name) return] leaves on [null] and on the empty string. *)
Definition savePreset (prompt : option string) (s : AppState) : AppState :=
  match prompt with
  | None => s
  | Some name =>
    if String.eqb name "" then s else
    let config :=
      {| PresetConfig.textColor := Some (textColor s);
         PresetConfig.textColorType := Some (textColorType s);
         PresetConfig.textGradientStart := Some (textGradientStart s);
         PresetConfig.textGradientEnd := Some (textGradientEnd s);
         PresetConfig.textGradientAngle := Some (textGradientAngle s);
         PresetConfig.border1Color := Some (border1Color s);
         PresetConfig.border1Width := Some (border1Width s);
         PresetConfig.border2Color := Some (border2Color s);
         PresetConfig.border2Width := Some (border2Width s);
         PresetConfig.shadowEnabled := Some (shadowEnabled s);
         PresetConfig.shadowOffsetX := Some (shadowOffsetX s);
         PresetConfig.shadowOffsetY := Some (shadowOffsetY s);
         PresetConfig.shadowBlur := Some (shadowBlur s);
         PresetConfig.shadowOpacity := Some (shadowOpacity s) |} in
    setPresets (presets s ++ [{| name := name; config := config |}]) s
  end.

(** [if (c.f !== undefined) setF(c.f)] *)
Definition if_defined {A} (o : option A) (set : A -> AppState -> AppState)
  (s : AppState) : AppState :=
  match o with
  | Some v => set v s
  | None => s
  end.

Definition loadPreset (preset : Preset) (s : AppState) : AppState :=
  let c := config preset in
  let s := if_defined (PresetConfig.textColor c) setTextColor s in
  let s := if_defined (PresetConfig.textColorType c) setTextColorType s in
  let s := if_defined (PresetConfig.textGradientStart c) setTextGradientStart s in
  let s := if_defined (PresetConfig.textGradientEnd c) setTextGradientEnd s in
  let s := if_defined (PresetConfig.textGradientAngle c) setTextGradientAngle s in
  let s := if_defined (PresetConfig.border1Color c) setBorder1Color s in
  let s := if_defined (PresetConfig.border1Width c) setBorder1Width s in
  let s := if_defined (PresetConfig.border2Color c) setBorder2Color s in
  let s := if_defined (PresetConfig.border2Width c) setBorder2Width s in
  let s := if_defined (PresetConfig.shadowEnabled c) setShadowEnabled s in
  let s := if_defined (PresetConfig.shadowOffsetX c) setShadowOffsetX s in
  let s := if_defined (PresetConfig.shadowOffsetY c) setShadowOffsetY s in
  let s := if_defined (PresetConfig.shadowBlur c) setShadowBlur s in
  let s := if_defined (PresetConfig.shadowOpacity c) setShadowOpacity s in
  s.

(** ** Host fonts *)

(** A JavaScript [Map] keyed by strings: entries in insertion order;
    [set] on a key already present replaces the value where the key sits. *)
Module JsMap.
Section WithValue.
Variable V : Type.

Definition t := list (string * V).

Fixpoint set (k : string) (v : V) (m : t) : t :=
  match m with
  | [] => [(k, v)]
  | (k', v') :: m' =>
    if String.eqb k' k then (k', v) :: m' else (k', v') :: set k v m'
  end.

(** [new Map(entries)] *)
Definition of_entries (entries : list (string * V)) : t :=
  fold_left (fun m kv => set (fst kv) (snd kv) m) entries [].

Definition keys (m : t) : list string := map fst m.
Definition values (m : t) : list V := map snd m.
End WithValue.
End JsMap.

(** [Array.prototype.sort(compare)]: a stable sort; an element goes before
    another exactly when [compare] on them is not positive or it came
    first.  Folding insertion from the right gives that order. *)
Module JsArray.
Section WithElement.
Variable A : Type.
Variable compare : A -> A -> Z.

Fixpoint insert (x : A) (l : list A) : list A :=
  match l with
  | [] => [x]
  | y :: l' =>
    if (compare x y <=? 0)%Z then x :: y :: l' else y :: insert x l'
  end.

Definition sort (l : list A) : list A := fold_right insert [] l.
End WithElement.
End JsArray.

(** The outcome of [await window.queryLocalFonts()]. *)
Inductive QueryResult :=
| Resolved (availableFonts : list LocalFont)
| Rejected (errorName : string).

Section Fonts.

(** [String.prototype.localeCompare] of the host. *)
Variable localeCompare : string -> string -> Z.

Definition uniqueFonts (availableFonts : list LocalFont) : list LocalFont :=
  JsArray.sort (fun a b => localeCompare (family a) (family b))
    (JsMap.values
       (JsMap.of_entries
          (map (fun font =>
                  (family font,
                   {| family := family font;
                      fullName := fullName font;
                      postscriptName := postscriptName font;
                      style := style font |}))
               availableFonts))).

(** [loadLocalFonts]: the state after the call and the text passed to
    [alert], if any.  [queryLocalFonts] is [None] when the window has no
    such property. *)
Definition loadLocalFonts (queryLocalFonts : option QueryResult)
  (s : AppState) : AppState * option string :=
  match queryLocalFonts with
  | None => (s, None)
  | Some result =>
    let s := setIsLoadingFonts true s in
    match result with
    | Resolved availableFonts =>
      let unique := uniqueFonts availableFonts in
      let s := setLocalFonts unique s in
      let s := setFontSource local_fonts s in
      let s :=
        match unique with
        | first :: _ => setFontFamily (family first) s
        | [] => s
        end in
      (setIsLoadingFonts false s, None)
    | Rejected errorName =>
      let errorMessage :=
        if String.eqb errorName "SecurityError" then
          "この環境ではローカルフォント機能が制限されています。"
        else if String.eqb errorName "NotAllowedError" then
          "フォントへのアクセス権限が拒否されました。
ブラウザの設定で権限を許可してください。"
        else "フォントへのアクセスに失敗しました。" in
      let s := setFontSource preset_fonts s in
      (setIsLoadingFonts false s, Some errorMessage)
    end
  end.

(** [a === b] on font sources. *)
Definition same_source (a b : FontSource) : bool :=
  match a, b with
  | preset_fonts, preset_fonts => true
  | local_fonts, local_fonts => true
  | _, _ => false
  end.

(** [handleFontSourceChange(source)], with the outcome the host would give
    a query: asking for the host fonts with none cached is [loadLocalFonts];
    otherwise the source is switched and the first font of its list chosen. *)
Definition handleFontSourceChange (source : FontSource)
  (queryLocalFonts : option QueryResult) (s : AppState)
  : AppState * option string :=
  if same_source source local_fonts && (List.length (localFonts s) =? 0)%nat
  then loadLocalFonts queryLocalFonts s
  else
    let s' := setFontSource source s in
    if same_source source preset_fonts then
      match presetFonts with
      | first :: _ => (setFontFamily (FontItem.family first) s', None)
      | [] => (s', None)
      end
    else if (0 <? List.length (localFonts s))%nat then
      match localFonts s with
      | first :: _ => (setFontFamily (family first) s', None)
      | [] => (s', None)
      end
    else (s', None).

End Fonts.

(** ** Rendering *)

(** The two canvases of the page and the files handed to the browser. *)
Record Download (Blob : Type) := { href : Blob; download : string }.

Record Page (Blob : Type) := {
  canvasRef : option Canvas;
  downloadCanvasRef : option Canvas;
  downloads : list (Download Blob)
}.

(** The drawing routines write [ctx.f] for the members of the context. *)
Module ctx := Canvas2D.

Section Render.

(** Host functions: [ctx.measureText(text).width] under a given font,
    and the [Math] members the gradient uses. *)
Variable measureText : ctx.Font -> string -> number.
Variable Math_PI : number.
Variable Math_cos : number -> number.
Variable Math_sin : number -> number.

(** [canvas.toBlob(callback, 'image/png')] hands [callback] a blob or
    [null]; [Date.now()]. *)
Variable Blob : Type.
Variable toBlob : Canvas -> option Blob.
Variable Date_now : Z.

Local Open Scope cmd_scope.

(** The statements of [drawText] once [canvas] and [ctx] are in hand.
    Awaiting [document.fonts.load] changes nothing the routine reads, and
    its failure is caught. *)
Definition drawText_ctx (s : AppState) (canvas : Canvas) : ctx.Cmd :=
  ctx.clearRect 0 0 (IZR (width canvas)) (IZR (height canvas)) ;;
  ctx.set_font {| ctx.font_px := fontSize s;
                  ctx.font_family := fontFamily s |} ;;
  ctx.set_textAlign "center" ;;
  ctx.set_textBaseline "middle" ;;
  ctx.set_lineJoin "round" ;;
  ctx.set_miterLimit 2 ;;
  let x := IZR (width canvas) / 2 in
  let y := IZR (height canvas) / 2 in
  ctx.when (shadowEnabled s)
    (ctx.set_shadowColor (ctx.Rgba 0 0 0 (shadowOpacity s)) ;;
     ctx.set_shadowBlur (shadowBlur s) ;;
     ctx.set_shadowOffsetX (shadowOffsetX s) ;;
     ctx.set_shadowOffsetY (shadowOffsetY s) ;;
     ctx.set_fillStyle (ctx.Solid (ctx.Css "black")) ;;
     ctx.fillText (text s) x y ;;
     ctx.set_shadowColor (ctx.Css "transparent") ;;
     ctx.set_shadowBlur 0 ;;
     ctx.set_shadowOffsetX 0 ;;
     ctx.set_shadowOffsetY 0) ;;
  ctx.when (gt0 (border2Width s))
    (ctx.set_strokeStyle (ctx.Solid (ctx.Css (border2Color s))) ;;
     ctx.set_lineWidth (border2Width s * 2) ;;
     ctx.strokeText (text s) x y) ;;
  ctx.when (gt0 (border1Width s))
    (ctx.set_strokeStyle (ctx.Solid (ctx.Css (border1Color s))) ;;
     ctx.set_lineWidth (border1Width s * 2) ;;
     ctx.strokeText (text s) x y) ;;
  match textColorType s with
  | gradient => fun cx =>
    let textHeight := fontSize s in
    let textWidth := measureText (ctx.font (ctx.state cx)) (text s) in
    let angleRad := (textGradientAngle s * Math_PI) / 180 in
    let x1 := x - (textWidth / 2) * Math_cos angleRad in
    let y1 := y - (textHeight / 2) * Math_sin angleRad in
    let x2 := x + (textWidth / 2) * Math_cos angleRad in
    let y2 := y + (textHeight / 2) * Math_sin angleRad in
    let gradient := ctx.createLinearGradient x1 y1 x2 y2 in
    let gradient := ctx.addColorStop 0 (textGradientStart s) gradient in
    let gradient := ctx.addColorStop 1 (textGradientEnd s) gradient in
    ctx.set_fillStyle (ctx.Linear gradient) cx
  | solid => ctx.set_fillStyle (ctx.Solid (ctx.Css (textColor s)))
  end ;;
  ctx.fillText (text s) x y.

(** [drawText(targetCanvas)]: the canvas after the call. *)
Definition drawText (s : AppState) (targetCanvas : option Canvas)
  : option Canvas :=
  match targetCanvas with
  | None => None
  | Some canvas =>
    match context2d canvas with
    | None => Some canvas
    | Some cx => Some (with_context (drawText_ctx s canvas cx) canvas)
    end
  end.

(** The statements of [downloadImage] between the three guards and
    [toBlob]. *)
Definition downloadImage_ctx (s : AppState) (downloadCanvas preview : Canvas)
  : ctx.Cmd :=
  ctx.clearRect 0 0 (IZR (width downloadCanvas)) (IZR (height downloadCanvas)) ;;
  let scale := IZR (width downloadCanvas) / IZR (width preview) in
  ctx.set_font {| ctx.font_px := fontSize s * scale;
                  ctx.font_family := fontFamily s |} ;;
  ctx.set_textAlign "center" ;;
  ctx.set_textBaseline "middle" ;;
  ctx.set_lineJoin "round" ;;
  ctx.set_miterLimit 2 ;;
  let x := IZR (width downloadCanvas) / 2 in
  let y := IZR (height downloadCanvas) / 2 in
  ctx.when (shadowEnabled s)
    (ctx.set_shadowColor (ctx.Rgba 0 0 0 (shadowOpacity s)) ;;
     ctx.set_shadowBlur (shadowBlur s * scale) ;;
     ctx.set_shadowOffsetX (shadowOffsetX s * scale) ;;
     ctx.set_shadowOffsetY (shadowOffsetY s * scale) ;;
     ctx.set_fillStyle (ctx.Solid (ctx.Css "black")) ;;
     ctx.fillText (text s) x y ;;
     ctx.set_shadowColor (ctx.Css "transparent") ;;
     ctx.set_shadowBlur 0 ;;
     ctx.set_shadowOffsetX 0 ;;
     ctx.set_shadowOffsetY 0) ;;
  ctx.when (gt0 (border2Width s))
    (ctx.set_strokeStyle (ctx.Solid (ctx.Css (border2Color s))) ;;
     ctx.set_lineWidth (border2Width s * 2 * scale) ;;
     ctx.strokeText (text s) x y) ;;
  ctx.when (gt0 (border1Width s))
    (ctx.set_strokeStyle (ctx.Solid (ctx.Css (border1Color s))) ;;
     ctx.set_lineWidth (border1Width s * 2 * scale) ;;
     ctx.strokeText (text s) x y) ;;
  match textColorType s with
  | gradient => fun cx =>
    let textHeight := fontSize s * scale in
    let textWidth := measureText (ctx.font (ctx.state cx)) (text s) in
    let angleRad := (textGradientAngle s * Math_PI) / 180 in
    let x1 := x - (textWidth / 2) * Math_cos angleRad in
    let y1 := y - (textHeight / 2) * Math_sin angleRad in
    let x2 := x + (textWidth / 2) * Math_cos angleRad in
    let y2 := y + (textHeight / 2) * Math_sin angleRad in
    let gradient := ctx.createLinearGradient x1 y1 x2 y2 in
    let gradient := ctx.addColorStop 0 (textGradientStart s) gradient in
    let gradient := ctx.addColorStop 1 (textGradientEnd s) gradient in
    ctx.set_fillStyle (ctx.Linear gradient) cx
  | solid => ctx.set_fillStyle (ctx.Solid (ctx.Css (textColor s)))
  end ;;
  ctx.fillText (text s) x y.

(** The name given to the file: [`decorated-text-${Date.now()}.png`]. *)
Definition download_name (now : Z) : string :=
  ("decorated-text-" ++ NilZero.string_of_int (Z.to_int now) ++ ".png")%string.

Definition downloadImage (s : AppState) (page : Page Blob) : Page Blob :=
  match downloadCanvasRef page with
  | None => page
  | Some downloadCanvas =>
    match context2d downloadCanvas with
    | None => page
    | Some cx =>
      match canvasRef page with
      | None => page
      | Some preview =>
        let drawn :=
          with_context (downloadImage_ctx s downloadCanvas preview cx)
                       downloadCanvas in
        {| canvasRef := canvasRef page;
           downloadCanvasRef := Some drawn;
           downloads :=
             match toBlob drawn with
             | None => downloads page
             | Some blob =>
               downloads page
               ++ [{| href := blob; download := download_name Date_now |}]
             end |}
      end
    end
  end.

End Render.

(** ** Rendering, as the host takes the colours *)

(** [drawText] and [downloadImage] above take every colour string as a
    colour, which is what the host does with the strings it parses.  With a
    string it does not parse the host does otherwise: an assignment of it
    to [fillStyle], [strokeStyle] or [shadowColor] is ignored, and
    [addColorStop] throws a [SyntaxError].  Every colour of the state can
    be typed into a text box, so the routines meet such strings.  What
    follows are the two routines again, statement for statement, with the
    host's parser in the loop. *)

(** How a call ends: it returns, or a statement in it throws (for the
    [async] routine [drawText], the promise it returned is rejected);
    either way with what it has done so far. *)
Inductive Completion (A : Type) :=
| Returns (a : A)
| Throws (error : string) (a : A).

Arguments Returns {A} a.
Arguments Throws {A} error a.

Definition reached {A} (c : Completion A) : A :=
  match c with
  | Returns a => a
  | Throws _ a => a
  end.

(** The error a call ends with, if it throws. *)
Definition thrown {A} (c : Completion A) : option string :=
  match c with
  | Returns _ => None
  | Throws error _ => Some error
  end.

(** Statements that may throw, and their sequencing: what follows a throw
    is not run. *)
Definition Script := ctx.Context -> Completion ctx.Context.

Definition run (c : ctx.Cmd) : Script := fun cx => Returns (c cx).

Definition and_then (c1 c2 : Script) : Script :=
  fun cx =>
    match c1 cx with
    | Returns cx' => c2 cx'
    | Throws error cx' => Throws error cx'
    end.

Declare Scope script_scope.
Delimit Scope script_scope with script.
Bind Scope script_scope with Script.
Notation "c1 ;; c2" := (and_then c1 c2)
  (at level 61, left associativity) : script_scope.

Coercion run : ctx.Cmd >-> Script.

Section HostRender.

Variable measureText : ctx.Font -> string -> number.
Variable Math_PI : number.
Variable Math_cos : number -> number.
Variable Math_sin : number -> number.
Variable Blob : Type.
Variable toBlob : Canvas -> option Blob.
Variable Date_now : Z.

(** Whether the host parses a string as a CSS colour. *)
Variable parses : string -> bool.

(** The template [`rgba(0, 0, 0, ${a})`] parses for every number. *)
Definition parses_color (c : ctx.Color) : bool :=
  match c with
  | ctx.Css s => parses s
  | ctx.Rgba _ _ _ _ => true
  end.

(** [ctx.fillStyle = v], [ctx.strokeStyle = v], [ctx.shadowColor = v]: a
    colour that does not parse is ignored, and the property keeps the value
    it had. *)
Definition taken_color (v earlier : ctx.Color) : ctx.Color :=
  if parses_color v then v else earlier.

Definition taken_style (v earlier : ctx.Style) : ctx.Style :=
  match v with
  | ctx.Solid c => if parses_color c then v else earlier
  | ctx.Linear _ => v
  end.

Definition host_set_fillStyle (v : ctx.Style) : ctx.Cmd :=
  fun cx =>
    ctx.set_fillStyle (taken_style v (ctx.fillStyle (ctx.state cx))) cx.

Definition host_set_strokeStyle (v : ctx.Style) : ctx.Cmd :=
  fun cx =>
    ctx.set_strokeStyle (taken_style v (ctx.strokeStyle (ctx.state cx))) cx.

Definition host_set_shadowColor (v : ctx.Color) : ctx.Cmd :=
  fun cx =>
    ctx.set_shadowColor (taken_color v (ctx.shadowColor (ctx.state cx))) cx.

(** [gradient.addColorStop(offset, color)]: [None] when it throws. *)
Definition host_addColorStop (offset : number) (color : string)
  (g : ctx.Gradient) : option ctx.Gradient :=
  if parses color then Some (ctx.addColorStop offset color g) else None.

Local Open Scope script_scope.

(** The statements of [drawText] once [canvas] and [ctx] are in hand. *)
Definition drawText_host_ctx (s : AppState) (canvas : Canvas) : Script :=
  ctx.clearRect 0 0 (IZR (width canvas)) (IZR (height canvas)) ;;
  ctx.set_font {| ctx.font_px := fontSize s;
                  ctx.font_family := fontFamily s |} ;;
  ctx.set_textAlign "center" ;;
  ctx.set_textBaseline "middle" ;;
  ctx.set_lineJoin "round" ;;
  ctx.set_miterLimit 2 ;;
  let x := IZR (width canvas) / 2 in
  let y := IZR (height canvas) / 2 in
  ctx.when (shadowEnabled s)
    (host_set_shadowColor (ctx.Rgba 0 0 0 (shadowOpacity s)) ;;
     ctx.set_shadowBlur (shadowBlur s) ;;
     ctx.set_shadowOffsetX (shadowOffsetX s) ;;
     ctx.set_shadowOffsetY (shadowOffsetY s) ;;
     host_set_fillStyle (ctx.Solid (ctx.Css "black")) ;;
     ctx.fillText (text s) x y ;;
     host_set_shadowColor (ctx.Css "transparent") ;;
     ctx.set_shadowBlur 0 ;;
     ctx.set_shadowOffsetX 0 ;;
     ctx.set_shadowOffsetY 0) ;;
  ctx.when (gt0 (border2Width s))
    (host_set_strokeStyle (ctx.Solid (ctx.Css (border2Color s))) ;;
     ctx.set_lineWidth (border2Width s * 2) ;;
     ctx.strokeText (text s) x y) ;;
  ctx.when (gt0 (border1Width s))
    (host_set_strokeStyle (ctx.Solid (ctx.Css (border1Color s))) ;;
     ctx.set_lineWidth (border1Width s * 2) ;;
     ctx.strokeText (text s) x y) ;;
  match textColorType s with
  | gradient => fun cx =>
    let textHeight := fontSize s in
    let textWidth := measureText (ctx.font (ctx.state cx)) (text s) in
    let angleRad := (textGradientAngle s * Math_PI) / 180 in
    let x1 := x - (textWidth / 2) * Math_cos angleRad in
    let y1 := y - (textHeight / 2) * Math_sin angleRad in
    let x2 := x + (textWidth / 2) * Math_cos angleRad in
    let y2 := y + (textHeight / 2) * Math_sin angleRad in
    let gradient := ctx.createLinearGradient x1 y1 x2 y2 in
    match host_addColorStop 0 (textGradientStart s) gradient with
    | None => Throws "SyntaxError" cx
    | Some gradient_0 =>
      match host_addColorStop 1 (textGradientEnd s) gradient_0 with
      | None => Throws "SyntaxError" cx
      | Some gradient_1 =>
        Returns (host_set_fillStyle (ctx.Linear gradient_1) cx)
      end
    end
  | solid => run (host_set_fillStyle (ctx.Solid (ctx.Css (textColor s))))
  end ;;
  ctx.fillText (text s) x y.

(** The statements of [downloadImage] between the three guards and
    [toBlob]. *)
Definition downloadImage_host_ctx (s : AppState)
  (downloadCanvas preview : Canvas) : Script :=
  ctx.clearRect 0 0 (IZR (width downloadCanvas)) (IZR (height downloadCanvas)) ;;
  let scale := IZR (width downloadCanvas) / IZR (width preview) in
  ctx.set_font {| ctx.font_px := fontSize s * scale;
                  ctx.font_family := fontFamily s |} ;;
  ctx.set_textAlign "center" ;;
  ctx.set_textBaseline "middle" ;;
  ctx.set_lineJoin "round" ;;
  ctx.set_miterLimit 2 ;;
  let x := IZR (width downloadCanvas) / 2 in
  let y := IZR (height downloadCanvas) / 2 in
  ctx.when (shadowEnabled s)
    (host_set_shadowColor (ctx.Rgba 0 0 0 (shadowOpacity s)) ;;
     ctx.set_shadowBlur (shadowBlur s * scale) ;;
     ctx.set_shadowOffsetX (shadowOffsetX s * scale) ;;
     ctx.set_shadowOffsetY (shadowOffsetY s * scale) ;;
     host_set_fillStyle (ctx.Solid (ctx.Css "black")) ;;
     ctx.fillText (text s) x y ;;
     host_set_shadowColor (ctx.Css "transparent") ;;
     ctx.set_shadowBlur 0 ;;
     ctx.set_shadowOffsetX 0 ;;
     ctx.set_shadowOffsetY 0) ;;
  ctx.when (gt0 (border2Width s))
    (host_set_strokeStyle (ctx.Solid (ctx.Css (border2Color s))) ;;
     ctx.set_lineWidth (border2Width s * 2 * scale) ;;
     ctx.strokeText (text s) x y) ;;
  ctx.when (gt0 (border1Width s))
    (host_set_strokeStyle (ctx.Solid (ctx.Css (border1Color s))) ;;
     ctx.set_lineWidth (border1Width s * 2 * scale) ;;
     ctx.strokeText (text s) x y) ;;
  match textColorType s with
  | gradient => fun cx =>
    let textHeight := fontSize s * scale in
    let textWidth := measureText (ctx.font (ctx.state cx)) (text s) in
    let angleRad := (textGradientAngle s * Math_PI) / 180 in
    let x1 := x - (textWidth / 2) * Math_cos angleRad in
    let y1 := y - (textHeight / 2) * Math_sin angleRad in
    let x2 := x + (textWidth / 2) * Math_cos angleRad in
    let y2 := y + (textHeight / 2) * Math_sin angleRad in
    let gradient := ctx.createLinearGradient x1 y1 x2 y2 in
    match host_addColorStop 0 (textGradientStart s) gradient with
    | None => Throws "SyntaxError" cx
    | Some gradient_0 =>
      match host_addColorStop 1 (textGradientEnd s) gradient_0 with
      | None => Throws "SyntaxError" cx
      | Some gradient_1 =>
        Returns (host_set_fillStyle (ctx.Linear gradient_1) cx)
      end
    end
  | solid => run (host_set_fillStyle (ctx.Solid (ctx.Css (textColor s))))
  end ;;
  ctx.fillText (text s) x y.

(** [drawText(targetCanvas)]: the canvas as the call leaves it, and how the
    call ends. *)
Definition drawText_host (s : AppState)
  (targetCanvas : option Canvas) : Completion (option Canvas) :=
  match targetCanvas with
  | None => Returns None
  | Some canvas =>
    match context2d canvas with
    | None => Returns (Some canvas)
    | Some cx =>
      match drawText_host_ctx s canvas cx with
      | Returns cx' => Returns (Some (with_context cx' canvas))
      | Throws error cx' => Throws error (Some (with_context cx' canvas))
      end
    end
  end.

(** [downloadImage()]: the page as the call leaves it, and how the call
    ends.  A throw comes before [toBlob]: no file is handed over. *)
Definition downloadImage_host (s : AppState)
  (page : Page Blob) : Completion (Page Blob) :=
  match downloadCanvasRef page with
  | None => Returns page
  | Some downloadCanvas =>
    match context2d downloadCanvas with
    | None => Returns page
    | Some cx =>
      match canvasRef page with
      | None => Returns page
      | Some preview =>
        match
          downloadImage_host_ctx s downloadCanvas preview cx
        with
        | Throws error cx' =>
          Throws error
            {| canvasRef := canvasRef page;
               downloadCanvasRef := Some (with_context cx' downloadCanvas);
               downloads := downloads page |}
        | Returns cx' =>
          let drawn := with_context cx' downloadCanvas in
          Returns
            {| canvasRef := canvasRef page;
               downloadCanvasRef := Some drawn;
               downloads :=
                 match toBlob drawn with
                 | None => downloads page
                 | Some blob =>
                   (downloads page
                    ++ [{| href := blob;
                           download := download_name Date_now |}])%list
                 end |}
        end
      end
    end
  end.

End HostRender.

(** ** The page as the component first renders it *)

(** The two shapes of the presets the component starts with. *)
Definition solid_preset (name textColor border1Color : string)
  (border1Width : number) (border2Color : string) (border2Width : number)
  : Preset :=
  {| name := name;
     config :=
       {| PresetConfig.textColor := Some textColor;
          PresetConfig.textColorType := Some solid;
          PresetConfig.textGradientStart := None;
          PresetConfig.textGradientEnd := None;
          PresetConfig.textGradientAngle := None;
          PresetConfig.border1Color := Some border1Color;
          PresetConfig.border1Width := Some border1Width;
          PresetConfig.border2Color := Some border2Color;
          PresetConfig.border2Width := Some border2Width;
          PresetConfig.shadowEnabled := None;
          PresetConfig.shadowOffsetX := None;
          PresetConfig.shadowOffsetY := None;
          PresetConfig.shadowBlur := None;
          PresetConfig.shadowOpacity := None |} |}.

Definition gradient_preset (name textGradientStart textGradientEnd
  border1Color : string) (border1Width : number) (border2Color : string)
  (border2Width : number) : Preset :=
  {| name := name;
     config :=
       {| PresetConfig.textColor := None;
          PresetConfig.textColorType := Some gradient;
          PresetConfig.textGradientStart := Some textGradientStart;
          PresetConfig.textGradientEnd := Some textGradientEnd;
          PresetConfig.textGradientAngle := None;
          PresetConfig.border1Color := Some border1Color;
          PresetConfig.border1Width := Some border1Width;
          PresetConfig.border2Color := Some border2Color;
          PresetConfig.border2Width := Some border2Width;
          PresetConfig.shadowEnabled := None;
          PresetConfig.shadowOffsetX := None;
          PresetConfig.shadowOffsetY := None;
          PresetConfig.shadowBlur := None;
          PresetConfig.shadowOpacity := None |} |}.

(** The arguments of the [useState] calls. *)
Definition initial_state : AppState :=
  {| text := "サンプル";
     fontSize := 120;
     fontFamily :=
       match presetFonts with
       | first :: _ => FontItem.family first
       | [] => ""
       end;
     localFontsAvailable := false;
     localFonts := [];
     fontSource := preset_fonts;
     isLoadingFonts := false;
     textColorType := solid;
     textColor := "#FF0000";
     textGradientStart := "#FF0000";
     textGradientEnd := "#FF6600";
     textGradientAngle := 90;
     border1Color := "#FFFFFF";
     border1Width := 8;
     border2Color := "#000000";
     border2Width := 18;
     shadowEnabled := true;
     shadowOffsetX := 8;
     shadowOffsetY := 8;
     shadowBlur := 10;
     shadowOpacity := 0.6;
     activeTab := "text";
     presets :=
       [ solid_preset "YouTube風" "#FF0000" "#FFFFFF" 8 "#000000" 18;
         gradient_preset "ゲーム実況風" "#FFD700" "#FF8C00" "#000000" 10
                         "#FFFFFF" 2;
         solid_preset "シンプル白" "#FFFFFF" "#000000" 6 "#333333" 0;
         gradient_preset "ネオン風" "#00FFFF" "#FF00FF" "#FFFFFF" 4
                         "#000000" 12 ] |}.

(** A canvas element whose context is [cx]. *)
Definition canvas_with (w h : Z) (cx : ctx.Context) : Canvas :=
  {| width := w; height := h; context2d := Some cx |}.

(** The 800 x 450 preview canvas and the 1920 x 1080 export canvas. *)
Definition preview_canvas : Canvas := canvas_with 800 450 ctx.fresh.
Definition export_canvas : Canvas := canvas_with 1920 1080 ctx.fresh.

Definition initial_page (Blob : Type) : Page Blob :=
  {| canvasRef := Some preview_canvas;
     downloadCanvasRef := Some export_canvas;
     downloads := [] |}.

(** * Vocabulary of the properties *)

(** ** Reading a painted surface *)

(** What has been painted on a canvas reference. *)
Definition painted_on (c : option Canvas) : list ctx.Op :=
  match c with
  | Some canvas =>
    match context2d canvas with
    | Some cx => ctx.painted cx
    | None => []
    end
  | None => []
  end.

(** The shadow parameters a paint operation ran under. *)
Record Shadow := {
  shadow_color : ctx.Color;
  shadow_blur : number;
  shadow_offset : number * number
}.

Definition shadow_of (st : ctx.State) : Shadow :=
  {| shadow_color := ctx.shadowColor st;
     shadow_blur := ctx.shadowBlur st;
     shadow_offset := (ctx.shadowOffsetX st, ctx.shadowOffsetY st) |}.


(** A paint operation by kind and by the paint it applies. *)
Inductive Pass :=
| Cleared
| Filled (text : string) (style : ctx.Style)
| Stroked (text : string) (style : ctx.Style).

Definition pass_of (op : ctx.Op) : Pass :=
  match op with
  | ctx.ClearRect _ _ _ _ => Cleared
  | ctx.FillText st t _ _ => Filled t (ctx.fillStyle st)
  | ctx.StrokeText st t _ _ => Stroked t (ctx.strokeStyle st)
  end.

(** The line widths of the stroke operations, in order. *)
Definition stroke_widths (ops : list ctx.Op) : list number :=
  flat_map (fun op =>
              match op with
              | ctx.StrokeText st _ _ _ => [ctx.lineWidth st]
              | _ => []
              end) ops.



(** The operations a list gained beyond a known prefix. *)
Definition since (before : list ctx.Op) (after : list ctx.Op) : list ctx.Op :=
  skipn (List.length before) after.

(** ** Presets *)

(** The value a field takes when a preset is loaded. *)
Definition overridden {A} (o : option A) (current : A) : A :=
  match o with
  | Some v => v
  | None => current
  end.

(** The preset of the scenario: an inner outline, black and 5 wide, and
    nothing else. *)
Definition black_outline_preset : Preset :=
  {| name := "outline";
     config :=
       {| PresetConfig.textColor := None;
          PresetConfig.textColorType := None;
          PresetConfig.textGradientStart := None;
          PresetConfig.textGradientEnd := None;
          PresetConfig.textGradientAngle := None;
          PresetConfig.border1Color := Some "#000000";
          PresetConfig.border1Width := Some 5;
          PresetConfig.border2Color := None;
          PresetConfig.border2Width := None;
          PresetConfig.shadowEnabled := None;
          PresetConfig.shadowOffsetX := None;
          PresetConfig.shadowOffsetY := None;
          PresetConfig.shadowBlur := None;
          PresetConfig.shadowOpacity := None |} |}.

(** Field by field, what [loadPreset] leaves in the state [s']: each of the
    fourteen style fields is the preset's value where the preset defines
    one and the current value where it does not; the nine other cells are
    the current ones. *)
Definition merged (c : PresetConfig.t) (s s' : AppState) : Prop :=
  textColor s' = overridden (PresetConfig.textColor c) (textColor s)
  /\ textColorType s'
     = overridden (PresetConfig.textColorType c) (textColorType s)
  /\ textGradientStart s'
     = overridden (PresetConfig.textGradientStart c) (textGradientStart s)
  /\ textGradientEnd s'
     = overridden (PresetConfig.textGradientEnd c) (textGradientEnd s)
  /\ textGradientAngle s'
     = overridden (PresetConfig.textGradientAngle c) (textGradientAngle s)
  /\ border1Color s' = overridden (PresetConfig.border1Color c) (border1Color s)
  /\ border1Width s' = overridden (PresetConfig.border1Width c) (border1Width s)
  /\ border2Color s' = overridden (PresetConfig.border2Color c) (border2Color s)
  /\ border2Width s' = overridden (PresetConfig.border2Width c) (border2Width s)
  /\ shadowEnabled s'
     = overridden (PresetConfig.shadowEnabled c) (shadowEnabled s)
  /\ shadowOffsetX s'
     = overridden (PresetConfig.shadowOffsetX c) (shadowOffsetX s)
  /\ shadowOffsetY s'
     = overridden (PresetConfig.shadowOffsetY c) (shadowOffsetY s)
  /\ shadowBlur s' = overridden (PresetConfig.shadowBlur c) (shadowBlur s)
  /\ shadowOpacity s'
     = overridden (PresetConfig.shadowOpacity c) (shadowOpacity s)
  /\ text s' = text s
  /\ fontSize s' = fontSize s
  /\ fontFamily s' = fontFamily s
  /\ localFontsAvailable s' = localFontsAvailable s
  /\ localFonts s' = localFonts s
  /\ fontSource s' = fontSource s
  /\ isLoadingFonts s' = isLoadingFonts s
  /\ activeTab s' = activeTab s
  /\ presets s' = presets s.

(** The preset most recently added to the list. *)
Definition newest_preset (s : AppState) : option Preset :=
  last (map Some (presets s)) None.

(** What saving under the name "mine" adds to the initial list. *)
Definition my_preset : Preset :=
  {| name := "mine";
     config :=
       {| PresetConfig.textColor := Some "#FF0000";
          PresetConfig.textColorType := Some solid;
          PresetConfig.textGradientStart := Some "#FF0000";
          PresetConfig.textGradientEnd := Some "#FF6600";
          PresetConfig.textGradientAngle := Some 90;
          PresetConfig.border1Color := Some "#FFFFFF";
          PresetConfig.border1Width := Some 8;
          PresetConfig.border2Color := Some "#000000";
          PresetConfig.border2Width := Some 18;
          PresetConfig.shadowEnabled := Some true;
          PresetConfig.shadowOffsetX := Some 8;
          PresetConfig.shadowOffsetY := Some 8;
          PresetConfig.shadowBlur := Some 10;
          PresetConfig.shadowOpacity := Some 0.6 |} |}.

(** A preset that fixes the shadow and nothing else. *)
Definition soft_shadow_preset : Preset :=
  {| name := "soft shadow";
     config :=
       {| PresetConfig.textColor := None;
          PresetConfig.textColorType := None;
          PresetConfig.textGradientStart := None;
          PresetConfig.textGradientEnd := None;
          PresetConfig.textGradientAngle := None;
          PresetConfig.border1Color := None;
          PresetConfig.border1Width := None;
          PresetConfig.border2Color := None;
          PresetConfig.border2Width := None;
          PresetConfig.shadowEnabled := Some true;
          PresetConfig.shadowOffsetX := Some 2;
          PresetConfig.shadowOffsetY := Some 2;
          PresetConfig.shadowBlur := Some 20;
          PresetConfig.shadowOpacity := Some 0.3 |} |}.

(** ** Host fonts *)

(** Looking a key up in a map. *)
Definition JsMap_get {V} (k : string) (m : JsMap.t V) : option V :=
  option_map snd (find (fun kv => String.eqb (fst kv) k) m).

(** The first and the last font of a list that carry a family name. *)
Definition first_with_family (f : string) (fonts : list LocalFont)
  : option LocalFont :=
  find (fun x => String.eqb (family x) f) fonts.

Definition last_with_family (f : string) (fonts : list LocalFont)
  : option LocalFont :=
  find (fun x => String.eqb (family x) f) (rev fonts).

(** Readings of "one entry per family": the entry is the first font of
    that family in enumeration order, or the last. *)
Definition first_occurrence_wins (fonts out : list LocalFont) : Prop :=
  forall x, In x out -> first_with_family (family x) fonts = Some x.

Definition last_occurrence_wins (fonts out : list LocalFont) : Prop :=
  forall x, In x out <-> last_with_family (family x) fonts = Some x.

(** Comparison of strings by character code, as a [localeCompare]. *)
Definition code_compare (a b : string) : Z :=
  match String.compare a b with
  | Lt => (-1)%Z
  | Eq => 0%Z
  | Gt => 1%Z
  end.

(** Two faces of one family, as the host enumerates them. *)
Definition arial_regular : LocalFont :=
  {| family := "Arial"; fullName := "Arial";
     postscriptName := "ArialMT"; style := "Regular" |}.

Definition arial_bold : LocalFont :=
  {| family := "Arial"; fullName := "Arial Bold";
     postscriptName := "Arial-BoldMT"; style := "Bold" |}.

Definition courier : LocalFont :=
  {| family := "Courier New"; fullName := "Courier New";
     postscriptName := "CourierNewPSMT"; style := "Regular" |}.

(** Folding [set] over some entries, from a map [m]. *)
Definition set_all {V} (entries : list (string * V)) (m : JsMap.t V)
  : JsMap.t V :=
  fold_left (fun m kv => JsMap.set (fst kv) (snd kv) m) entries m.

(** The entry [uniqueFonts] files a font under, and the map it builds. *)
Definition font_entry (font : LocalFont) : string * LocalFont :=
  (family font,
   {| family := family font; fullName := fullName font;
      postscriptName := postscriptName font; style := style font |}).

Definition font_map (availableFonts : list LocalFont) : JsMap.t LocalFont :=
  JsMap.of_entries (map font_entry availableFonts).

(** ** Cells, by what reads and writes them *)

(** The fourteen cells a preset stores, and the nine it does not. *)
Definition style_cells (s : AppState) :=
  (textColor s, textColorType s, textGradientStart s, textGradientEnd s,
   textGradientAngle s, border1Color s, border1Width s, border2Color s,
   border2Width s, shadowEnabled s, shadowOffsetX s, shadowOffsetY s,
   shadowBlur s, shadowOpacity s).

Definition other_cells (s : AppState) :=
  (text s, fontSize s, fontFamily s, localFontsAvailable s, localFonts s,
   fontSource s, isLoadingFonts s, activeTab s, presets s).

(** The cells [loadLocalFonts] and [handleFontSourceChange] may write. *)
Definition font_cells (s : AppState) :=
  (fontFamily s, localFonts s, fontSource s, isLoadingFonts s).

Definition non_font_cells (s : AppState) :=
  (style_cells s, text s, fontSize s, localFontsAvailable s, activeTab s,
   presets s).

(** The dependency list of the effect that calls [drawText], in its
    order. *)
Definition render_deps (s : AppState) :=
  (text s, fontSize s, fontFamily s, textColor s, textColorType s,
   textGradientStart s, textGradientEnd s, textGradientAngle s,
   border1Color s, border1Width s, border2Color s, border2Width s,
   shadowEnabled s, shadowOffsetX s, shadowOffsetY s, shadowBlur s,
   shadowOpacity s).

(** A config that defines all fourteen properties. *)
Definition fully_defined (c : PresetConfig.t) : bool :=
  PresetConfig.is_defined (PresetConfig.textColor c)
  && PresetConfig.is_defined (PresetConfig.textColorType c)
  && PresetConfig.is_defined (PresetConfig.textGradientStart c)
  && PresetConfig.is_defined (PresetConfig.textGradientEnd c)
  && PresetConfig.is_defined (PresetConfig.textGradientAngle c)
  && PresetConfig.is_defined (PresetConfig.border1Color c)
  && PresetConfig.is_defined (PresetConfig.border1Width c)
  && PresetConfig.is_defined (PresetConfig.border2Color c)
  && PresetConfig.is_defined (PresetConfig.border2Width c)
  && PresetConfig.is_defined (PresetConfig.shadowEnabled c)
  && PresetConfig.is_defined (PresetConfig.shadowOffsetX c)
  && PresetConfig.is_defined (PresetConfig.shadowOffsetY c)
  && PresetConfig.is_defined (PresetConfig.shadowBlur c)
  && PresetConfig.is_defined (PresetConfig.shadowOpacity c).

(** The state a config leaves when laid over a state, as one record. *)
Definition laid_over (c : PresetConfig.t) (s : AppState) : AppState :=
  {| text := text s;
     fontSize := fontSize s;
     fontFamily := fontFamily s;
     localFontsAvailable := localFontsAvailable s;
     localFonts := localFonts s;
     fontSource := fontSource s;
     isLoadingFonts := isLoadingFonts s;
     textColorType :=
       overridden (PresetConfig.textColorType c) (textColorType s);
     textColor := overridden (PresetConfig.textColor c) (textColor s);
     textGradientStart :=
       overridden (PresetConfig.textGradientStart c) (textGradientStart s);
     textGradientEnd :=
       overridden (PresetConfig.textGradientEnd c) (textGradientEnd s);
     textGradientAngle :=
       overridden (PresetConfig.textGradientAngle c) (textGradientAngle s);
     border1Color := overridden (PresetConfig.border1Color c) (border1Color s);
     border1Width := overridden (PresetConfig.border1Width c) (border1Width s);
     border2Color := overridden (PresetConfig.border2Color c) (border2Color s);
     border2Width := overridden (PresetConfig.border2Width c) (border2Width s);
     shadowEnabled :=
       overridden (PresetConfig.shadowEnabled c) (shadowEnabled s);
     shadowOffsetX :=
       overridden (PresetConfig.shadowOffsetX c) (shadowOffsetX s);
     shadowOffsetY :=
       overridden (PresetConfig.shadowOffsetY c) (shadowOffsetY s);
     shadowBlur := overridden (PresetConfig.shadowBlur c) (shadowBlur s);
     shadowOpacity :=
       overridden (PresetConfig.shadowOpacity c) (shadowOpacity s);
     activeTab := activeTab s;
     presets := presets s |}.

(** Two optional values that do not contradict each other. *)
Definition agree {A} (o1 o2 : option A) : Prop :=
  match o1, o2 with
  | Some a, Some b => a = b
  | _, _ => True
  end.

(** Two configs that give the same value wherever both give one. *)
Definition compatible (c d : PresetConfig.t) : Prop :=
  agree (PresetConfig.textColor c) (PresetConfig.textColor d)
  /\ agree (PresetConfig.textColorType c) (PresetConfig.textColorType d)
  /\ agree (PresetConfig.textGradientStart c) (PresetConfig.textGradientStart d)
  /\ agree (PresetConfig.textGradientEnd c) (PresetConfig.textGradientEnd d)
  /\ agree (PresetConfig.textGradientAngle c) (PresetConfig.textGradientAngle d)
  /\ agree (PresetConfig.border1Color c) (PresetConfig.border1Color d)
  /\ agree (PresetConfig.border1Width c) (PresetConfig.border1Width d)
  /\ agree (PresetConfig.border2Color c) (PresetConfig.border2Color d)
  /\ agree (PresetConfig.border2Width c) (PresetConfig.border2Width d)
  /\ agree (PresetConfig.shadowEnabled c) (PresetConfig.shadowEnabled d)
  /\ agree (PresetConfig.shadowOffsetX c) (PresetConfig.shadowOffsetX d)
  /\ agree (PresetConfig.shadowOffsetY c) (PresetConfig.shadowOffsetY d)
  /\ agree (PresetConfig.shadowBlur c) (PresetConfig.shadowBlur d)
  /\ agree (PresetConfig.shadowOpacity c) (PresetConfig.shadowOpacity d).

(** The family names of the curated list. *)
Definition curated_families : list string := map FontItem.family presetFonts.

(** The selected family is one the list on show offers: a curated one
    while the curated list is shown; a host one while the host list is
    shown, or a curated one when the host list is empty. *)
Definition selection_offered (s : AppState) : Prop :=
  match fontSource s with
  | preset_fonts => In (fontFamily s) curated_families
  | local_fonts =>
    (localFonts s = [] /\ In (fontFamily s) curated_families)
    \/ In (fontFamily s) (map family (localFonts s))
  end.

(** ** Shadows and settings of the operations *)

(** No shadow is in force: transparent colour (as the reset writes it, or
    as a fresh context has it), no blur, no offset. *)
Definition shadow_idle (st : ctx.State) : Prop :=
  (ctx.shadowColor st = ctx.Css "transparent"
   \/ ctx.shadowColor st = ctx.Rgba 0 0 0 0)
  /\ ctx.shadowBlur st = 0
  /\ ctx.shadowOffsetX st = 0
  /\ ctx.shadowOffsetY st = 0.

(** An operation drawn with no shadow in force. *)
Definition op_idle (op : ctx.Op) : Prop :=
  match op with
  | ctx.ClearRect _ _ _ _ => True
  | ctx.StrokeText st _ _ _ => shadow_idle st
  | ctx.FillText st _ _ _ => shadow_idle st
  end.

(** The settings a text operation draws with: font, alignment, baseline
    and shadow, with the fill paint for a fill, and the stroke paint, width,
    join and miter limit for a stroke. *)
Inductive Seen :=
| SeenClear (x y w h : number)
| SeenFill (font : ctx.Font) (align baseline : string) (paint : ctx.Style)
           (shadow : Shadow) (text : string) (x y : number)
| SeenStroke (font : ctx.Font) (align baseline : string) (paint : ctx.Style)
             (lineWidth : number) (join : string) (miter : number)
             (shadow : Shadow) (text : string) (x y : number).

Definition seen (op : ctx.Op) : Seen :=
  match op with
  | ctx.ClearRect x y w h => SeenClear x y w h
  | ctx.FillText st t x y =>
    SeenFill (ctx.font st) (ctx.textAlign st) (ctx.textBaseline st)
             (ctx.fillStyle st) (shadow_of st) t x y
  | ctx.StrokeText st t x y =>
    SeenStroke (ctx.font st) (ctx.textAlign st) (ctx.textBaseline st)
               (ctx.strokeStyle st) (ctx.lineWidth st) (ctx.lineJoin st)
               (ctx.miterLimit st) (shadow_of st) t x y
  end.

(** ** Hosts to try the render on *)

(** A host that makes every character half an em wide. *)
Definition half_em_measure (f : ctx.Font) (t : string) : number :=
  ctx.font_px f * INR (String.length t) / 2.

(** A host that always encodes, to a blob that carries the canvas. *)
Definition encode (c : Canvas) : option Canvas := Some c.

(** A page whose canvases are not mounted. *)
Definition unmounted_page : Page Canvas :=
  {| canvasRef := None; downloadCanvasRef := None; downloads := [] |}.

(** A host that reads as colours the two keywords the routines write and
    [#] followed by three, four, six or eight hexadecimal digits. *)
Definition hex_digit (c : Ascii.ascii) : bool :=
  let n := Ascii.nat_of_ascii c in
  ((48 <=? n) && (n <=? 57) || (65 <=? n) && (n <=? 70)
   || (97 <=? n) && (n <=? 102))%nat.

Definition hash : Ascii.ascii := Ascii.ascii_of_nat 35.

Definition hex_or_keyword (color : string) : bool :=
  match color with
  | String c digits =>
    if Ascii.eqb c hash
    then forallb hex_digit (list_ascii_of_string digits)
         && existsb (Nat.eqb (String.length digits)) [3; 4; 6; 8]%nat
    else String.eqb color "black" || String.eqb color "transparent"
  | EmptyString => false
  end.

(** The initial state switched to a gradient fill, with one digit of the
    start colour still to be typed into its text box. *)
Definition half_typed_gradient : AppState :=
  setTextGradientStart "#FF000" (setTextColorType gradient initial_state).

(** No text, no outline, no shadow, and a gradient fill whose start colour
    has been cleared from its text box. *)
Definition cleared_gradient_colour : AppState :=
  setTextGradientStart ""
    (setTextColorType gradient
       (setShadowEnabled false
          (setBorder2Width 0 (setBorder1Width 0 (setText "" initial_state))))).

(** The line width of the export in binary64 arithmetic, operation for
    operation as [downloadImage] computes it. *)
Definition lineWidth_binary64 (borderWidth downloadWidth previewWidth : float)
  : float :=
  (borderWidth * 2 * (downloadWidth / previewWidth))%float.

(** Two lists of reals are equal when their elements are, one by one. *)
Ltac same_reals :=
  repeat match goal with
         | |- (_ :: _) = (_ :: _) => apply f_equal2; [try ring; try lra|]
         end;
  try reflexivity.

(** ** Rendering *)

Section RenderSpec.

Variable measureText : ctx.Font -> string -> number.
Variable Math_PI : number.
Variable Math_cos : number -> number.
Variable Math_sin : number -> number.
Variable Blob : Type.
Variable toBlob : Canvas -> option Blob.
Variable Date_now : Z.
Variable parses : string -> bool.

Local Abbreviation drawText := (drawText measureText Math_PI Math_cos Math_sin).
Local Abbreviation downloadImage :=
  (downloadImage measureText Math_PI Math_cos Math_sin toBlob Date_now).
Local Abbreviation drawText_host :=
  (drawText_host measureText Math_PI Math_cos Math_sin parses).
Local Abbreviation downloadImage_host :=
  (downloadImage_host measureText Math_PI Math_cos Math_sin toBlob Date_now
                      parses).
Local Abbreviation drawText_host_ctx :=
  (drawText_host_ctx measureText Math_PI Math_cos Math_sin parses).
Local Abbreviation downloadImage_host_ctx :=
  (downloadImage_host_ctx measureText Math_PI Math_cos Math_sin parses).

(** What one call of [drawText] adds to a canvas with context [cx]. *)
Definition preview_ops (s : AppState) (w h : Z) (cx : ctx.Context)
  : list ctx.Op :=
  since (ctx.painted cx)
        (painted_on (drawText s (Some (canvas_with w h cx)))).

(** What one call of [downloadImage] adds to the export canvas, of
    context [cx], when the preview canvas is [preview]. *)
Definition export_ops (s : AppState) (preview : Canvas) (w h : Z)
  (cx : ctx.Context) (files : list (Download Blob)) : list ctx.Op :=
  since (ctx.painted cx)
        (painted_on
           (downloadCanvasRef
              (downloadImage s
                 {| canvasRef := Some preview;
                    downloadCanvasRef := Some (canvas_with w h cx);
                    downloads := files |}))).

(** The factor between the export canvas and the preview canvas, as
    [downloadImage] computes it. *)
Definition export_scale (export_width : Z) (preview : Canvas) : number :=
  IZR export_width / IZR (width preview).


(** The gradient of the specification: an axis through the anchor, half
    the text width along [cos] and half the text height along [sin] on
    either side, coloured from [c0] at 0 to [c1] at 1. *)
Definition axis_gradient (anchor_x anchor_y W H theta : number)
  (c0 c1 : string) : ctx.Gradient :=
  {| ctx.gx0 := anchor_x - (W / 2) * Math_cos theta;
     ctx.gy0 := anchor_y - (H / 2) * Math_sin theta;
     ctx.gx1 := anchor_x + (W / 2) * Math_cos theta;
     ctx.gy1 := anchor_y + (H / 2) * Math_sin theta;
     ctx.colorStops := [(0, c0); (1, c1)] |}.

(** The gradient of a state at a given scale on a [w] x [h] surface: the
    angle in radians, the width measured under the scaled font, the height
    [fontSize * scale], the anchor at the centre. *)
Definition text_gradient (s : AppState) (scale : number) (w h : Z)
  : ctx.Gradient :=
  let theta := textGradientAngle s * Math_PI / 180 in
  let W :=
    measureText {| ctx.font_px := fontSize s * scale;
                   ctx.font_family := fontFamily s |} (text s) in
  let H := fontSize s * scale in
  axis_gradient (IZR w / 2) (IZR h / 2) W H theta
                (textGradientStart s) (textGradientEnd s).

(** The width the gradient spans: the text measured under the font in
    force, at the given scale. *)
Definition measured_width (s : AppState) (scale : number) : number :=
  measureText {| ctx.font_px := fontSize s * scale;
                 ctx.font_family := fontFamily s |} (text s).

(** An axis is upright within [tol] when its ends are no further apart
    than [tol] across, and level when they sit at the same height. *)
Definition upright_within (tol : number) (g : ctx.Gradient) : Prop :=
  Rabs (ctx.gx1 g - ctx.gx0 g) <= tol.

Definition level (g : ctx.Gradient) : Prop := ctx.gy0 g = ctx.gy1 g.

(** At 90 degrees the axis is upright within [|W| * eps], [W] the measured
    width; at 0 degrees it is level. *)
Definition squared_up (s : AppState) (scale eps : number) (g : ctx.Gradient)
  : Prop :=
  (textGradientAngle s = 90 ->
   upright_within (Rabs (measured_width s scale) * eps) g)
  /\ (textGradientAngle s = 0 -> level g).

(** The export has no surface to draw on, or no preview to scale from. *)
Definition no_export_surface (page : Page Blob) : Prop :=
  downloadCanvasRef page = None
  \/ (exists downloadCanvas,
         downloadCanvasRef page = Some downloadCanvas
         /\ context2d downloadCanvas = None)
  \/ canvasRef page = None.

(** ** Rendering on the host *)

(** The page an export starts from: both canvases mounted, the export
    canvas with context [cx]. *)
Definition export_page (preview : Canvas) (w h : Z) (cx : ctx.Context)
  (files : list (Download Blob)) : Page Blob :=
  {| canvasRef := Some preview;
     downloadCanvasRef := Some (canvas_with w h cx);
     downloads := files |}.

(** What one call of [drawText] adds to a canvas with context [cx] on the
    host, up to where the call ends. *)
Definition host_preview_ops (s : AppState) (w h : Z) (cx : ctx.Context)
  : list ctx.Op :=
  since (ctx.painted cx)
        (painted_on (reached (drawText_host s (Some (canvas_with w h cx))))).

(** The same for one call of [downloadImage] and the export canvas. *)
Definition host_export_ops (s : AppState) (preview : Canvas) (w h : Z)
  (cx : ctx.Context) (files : list (Download Blob)) : list ctx.Op :=
  since (ctx.painted cx)
        (painted_on
           (downloadCanvasRef
              (reached
                 (downloadImage_host s (export_page preview w h cx files))))).

(** The context a render of [s] leaves on the host, on a canvas [w] by [h]
    with context [cx]: after [drawText], and after [downloadImage]. *)
Definition previewed_on_host (s : AppState) (w h : Z) (cx : ctx.Context)
  : ctx.Context :=
  reached (drawText_host_ctx s (canvas_with w h cx) cx).

Definition exported_on_host (s : AppState) (preview : Canvas) (w h : Z)
  (cx : ctx.Context) : ctx.Context :=
  reached (downloadImage_host_ctx s (canvas_with w h cx) preview cx).

(** Whether a render gets to its fill pass: always with a plain colour;
    with a gradient, when the host parses both of its colours. *)
Definition fill_reached (s : AppState) : bool :=
  match textColorType s with
  | solid => true
  | gradient => parses (textGradientStart s) && parses (textGradientEnd s)
  end.

(** How a render ends on the host. *)
Definition ends_as (s : AppState) : option string :=
  if fill_reached s then None else Some "SyntaxError".

(** The paint in force after a colour is assigned over an earlier paint. *)
Definition painted_with (color : string) (earlier : ctx.Style) : ctx.Style :=
  if parses color then ctx.Solid (ctx.Css color) else earlier.

(** The fill paint in force after the shadow pass, if there is one. *)
Definition fill_after_shadow (s : AppState) (cx : ctx.Context) : ctx.Style :=
  if shadowEnabled s
  then painted_with "black" (ctx.fillStyle (ctx.state cx))
  else ctx.fillStyle (ctx.state cx).

(** The stroke paint of the outer stroke, and of the inner stroke. *)
Definition outer_stroke_paint (s : AppState) (cx : ctx.Context) : ctx.Style :=
  painted_with (border2Color s) (ctx.strokeStyle (ctx.state cx)).

Definition inner_stroke_paint (s : AppState) (cx : ctx.Context) : ctx.Style :=
  painted_with (border1Color s)
    (if gt0 (border2Width s)
     then outer_stroke_paint s cx
     else ctx.strokeStyle (ctx.state cx)).

(** The passes of a render on the host up to the fill pass: clear, then the
    shadow, the outer stroke and the inner stroke, each under its own
    test. *)
Definition passes_before_fill (s : AppState) (cx : ctx.Context) : list Pass :=
  (Cleared
   :: (if shadowEnabled s
       then [Filled (text s) (fill_after_shadow s cx)] else [])
   ++ (if gt0 (border2Width s)
       then [Stroked (text s) (outer_stroke_paint s cx)] else [])
   ++ (if gt0 (border1Width s)
       then [Stroked (text s) (inner_stroke_paint s cx)] else []))%list.

(** The paint of the fill pass on the host: the text colour, or a gradient
    running from the start colour to the end colour. *)
Definition host_text_fill (s : AppState) (cx : ctx.Context)
  (style : ctx.Style) : Prop :=
  match textColorType s with
  | solid => style = painted_with (textColor s) (fill_after_shadow s cx)
  | gradient =>
    exists g, style = ctx.Linear g
      /\ ctx.colorStops g = [(0, textGradientStart s); (1, textGradientEnd s)]
  end.

(** The layering on the host: the passes up to the fill in their order,
    then the fill pass when the render gets there, and nothing when it does
    not. *)
Definition host_layered (s : AppState) (cx : ctx.Context)
  (passes : list Pass) : Prop :=
  if fill_reached s
  then exists fill,
         host_text_fill s cx fill
         /\ passes = (passes_before_fill s cx ++ [Filled (text s) fill])%list
  else passes = passes_before_fill s cx.

(** Under a shadow a render draws the fill of its shadow pass, right after
    the clear, and nothing else. *)
Definition shadow_pass_only (s : AppState) (w h : Z) (ops : list ctx.Op)
  : Prop :=
  if shadowEnabled s
  then exists st rest,
         ops = ctx.ClearRect 0 0 (IZR w) (IZR h)
               :: ctx.FillText st (text s) (IZR w / 2) (IZR h / 2) :: rest
         /\ Forall op_idle rest
  else Forall op_idle ops.

(** The host parses every colour the render assigns to a paint: the two
    keywords of the shadow pass, the colour of each stroke that runs, and
    the text colour of a plain fill. *)
Definition paints_parse (s : AppState) : bool :=
  (if shadowEnabled s then parses "black" && parses "transparent" else true)
  && (if gt0 (border2Width s) then parses (border2Color s) else true)
  && (if gt0 (border1Width s) then parses (border1Color s) else true)
  && match textColorType s with
     | solid => parses (textColor s)
     | gradient => true
     end.

(** The host parses every colour the render uses. *)
Definition colours_parse (s : AppState) : bool :=
  paints_parse s && fill_reached s.

(** The stroke paint, the fill paint and the shadow a render leaves in the
    context, from those it found; [g] is the gradient of a gradient fill. *)
Definition stroke_left (s : AppState) (earlier : ctx.Style) : ctx.Style :=
  let outer :=
    if gt0 (border2Width s)
    then painted_with (border2Color s) earlier else earlier in
  if gt0 (border1Width s) then painted_with (border1Color s) outer else outer.

Definition fill_left (s : AppState) (g : ctx.Gradient) (earlier : ctx.Style)
  : ctx.Style :=
  let shadowed :=
    if shadowEnabled s then painted_with "black" earlier else earlier in
  match textColorType s with
  | solid => painted_with (textColor s) shadowed
  | gradient => if fill_reached s then ctx.Linear g else shadowed
  end.

Definition shadow_left (s : AppState) (earlier : Shadow) : Shadow :=
  if shadowEnabled s
  then {| shadow_color :=
            if parses "transparent"
            then ctx.Css "transparent"
            else ctx.Rgba 0 0 0 (shadowOpacity s);
          shadow_blur := 0;
          shadow_offset := (0, 0) |}
  else earlier.

Local Open Scope script_scope.

(** The render on the host with the inner-stroke pass left out:
    [drawText] and [downloadImage] as written, minus the block under
    [if (border1Width > 0)]. *)
Definition drawText_host_ctx_omitting_inner_stroke (s : AppState)
  (canvas : Canvas) : Script :=
  ctx.clearRect 0 0 (IZR (width canvas)) (IZR (height canvas)) ;;
  ctx.set_font {| ctx.font_px := fontSize s;
                  ctx.font_family := fontFamily s |} ;;
  ctx.set_textAlign "center" ;;
  ctx.set_textBaseline "middle" ;;
  ctx.set_lineJoin "round" ;;
  ctx.set_miterLimit 2 ;;
  let x := IZR (width canvas) / 2 in
  let y := IZR (height canvas) / 2 in
  ctx.when (shadowEnabled s)
    (host_set_shadowColor parses (ctx.Rgba 0 0 0 (shadowOpacity s)) ;;
     ctx.set_shadowBlur (shadowBlur s) ;;
     ctx.set_shadowOffsetX (shadowOffsetX s) ;;
     ctx.set_shadowOffsetY (shadowOffsetY s) ;;
     host_set_fillStyle parses (ctx.Solid (ctx.Css "black")) ;;
     ctx.fillText (text s) x y ;;
     host_set_shadowColor parses (ctx.Css "transparent") ;;
     ctx.set_shadowBlur 0 ;;
     ctx.set_shadowOffsetX 0 ;;
     ctx.set_shadowOffsetY 0) ;;
  ctx.when (gt0 (border2Width s))
    (host_set_strokeStyle parses (ctx.Solid (ctx.Css (border2Color s))) ;;
     ctx.set_lineWidth (border2Width s * 2) ;;
     ctx.strokeText (text s) x y) ;;
  match textColorType s with
  | gradient => fun cx =>
    let textHeight := fontSize s in
    let textWidth := measureText (ctx.font (ctx.state cx)) (text s) in
    let angleRad := (textGradientAngle s * Math_PI) / 180 in
    let x1 := x - (textWidth / 2) * Math_cos angleRad in
    let y1 := y - (textHeight / 2) * Math_sin angleRad in
    let x2 := x + (textWidth / 2) * Math_cos angleRad in
    let y2 := y + (textHeight / 2) * Math_sin angleRad in
    let gradient := ctx.createLinearGradient x1 y1 x2 y2 in
    match host_addColorStop parses 0 (textGradientStart s) gradient with
    | None => Throws "SyntaxError" cx
    | Some gradient_0 =>
      match host_addColorStop parses 1 (textGradientEnd s) gradient_0 with
      | None => Throws "SyntaxError" cx
      | Some gradient_1 =>
        Returns (host_set_fillStyle parses (ctx.Linear gradient_1) cx)
      end
    end
  | solid => run (host_set_fillStyle parses (ctx.Solid (ctx.Css (textColor s))))
  end ;;
  ctx.fillText (text s) x y.

Definition downloadImage_host_ctx_omitting_inner_stroke (s : AppState)
  (downloadCanvas preview : Canvas) : Script :=
  ctx.clearRect 0 0 (IZR (width downloadCanvas)) (IZR (height downloadCanvas)) ;;
  let scale := IZR (width downloadCanvas) / IZR (width preview) in
  ctx.set_font {| ctx.font_px := fontSize s * scale;
                  ctx.font_family := fontFamily s |} ;;
  ctx.set_textAlign "center" ;;
  ctx.set_textBaseline "middle" ;;
  ctx.set_lineJoin "round" ;;
  ctx.set_miterLimit 2 ;;
  let x := IZR (width downloadCanvas) / 2 in
  let y := IZR (height downloadCanvas) / 2 in
  ctx.when (shadowEnabled s)
    (host_set_shadowColor parses (ctx.Rgba 0 0 0 (shadowOpacity s)) ;;
     ctx.set_shadowBlur (shadowBlur s * scale) ;;
     ctx.set_shadowOffsetX (shadowOffsetX s * scale) ;;
     ctx.set_shadowOffsetY (shadowOffsetY s * scale) ;;
     host_set_fillStyle parses (ctx.Solid (ctx.Css "black")) ;;
     ctx.fillText (text s) x y ;;
     host_set_shadowColor parses (ctx.Css "transparent") ;;
     ctx.set_shadowBlur 0 ;;
     ctx.set_shadowOffsetX 0 ;;
     ctx.set_shadowOffsetY 0) ;;
  ctx.when (gt0 (border2Width s))
    (host_set_strokeStyle parses (ctx.Solid (ctx.Css (border2Color s))) ;;
     ctx.set_lineWidth (border2Width s * 2 * scale) ;;
     ctx.strokeText (text s) x y) ;;
  match textColorType s with
  | gradient => fun cx =>
    let textHeight := fontSize s * scale in
    let textWidth := measureText (ctx.font (ctx.state cx)) (text s) in
    let angleRad := (textGradientAngle s * Math_PI) / 180 in
    let x1 := x - (textWidth / 2) * Math_cos angleRad in
    let y1 := y - (textHeight / 2) * Math_sin angleRad in
    let x2 := x + (textWidth / 2) * Math_cos angleRad in
    let y2 := y + (textHeight / 2) * Math_sin angleRad in
    let gradient := ctx.createLinearGradient x1 y1 x2 y2 in
    match host_addColorStop parses 0 (textGradientStart s) gradient with
    | None => Throws "SyntaxError" cx
    | Some gradient_0 =>
      match host_addColorStop parses 1 (textGradientEnd s) gradient_0 with
      | None => Throws "SyntaxError" cx
      | Some gradient_1 =>
        Returns (host_set_fillStyle parses (ctx.Linear gradient_1) cx)
      end
    end
  | solid => run (host_set_fillStyle parses (ctx.Solid (ctx.Css (textColor s))))
  end ;;
  ctx.fillText (text s) x y.

Definition drawText_host_omitting_inner_stroke (s : AppState)
  (targetCanvas : option Canvas) : Completion (option Canvas) :=
  match targetCanvas with
  | None => Returns None
  | Some canvas =>
    match context2d canvas with
    | None => Returns (Some canvas)
    | Some cx =>
      match drawText_host_ctx_omitting_inner_stroke s canvas cx with
      | Returns cx' => Returns (Some (with_context cx' canvas))
      | Throws error cx' => Throws error (Some (with_context cx' canvas))
      end
    end
  end.

Definition downloadImage_host_omitting_inner_stroke (s : AppState)
  (page : Page Blob) : Completion (Page Blob) :=
  match downloadCanvasRef page with
  | None => Returns page
  | Some downloadCanvas =>
    match context2d downloadCanvas with
    | None => Returns page
    | Some cx =>
      match canvasRef page with
      | None => Returns page
      | Some preview =>
        match
          downloadImage_host_ctx_omitting_inner_stroke s downloadCanvas preview cx
        with
        | Throws error cx' =>
          Throws error
            {| canvasRef := canvasRef page;
               downloadCanvasRef := Some (with_context cx' downloadCanvas);
               downloads := downloads page |}
        | Returns cx' =>
          let drawn := with_context cx' downloadCanvas in
          Returns
            {| canvasRef := canvasRef page;
               downloadCanvasRef := Some drawn;
               downloads :=
                 match toBlob drawn with
                 | None => downloads page
                 | Some blob =>
                   (downloads page
                    ++ [{| href := blob;
                           download := download_name Date_now |}])%list
                 end |}
        end
      end
    end
  end.

(** * Proofs *)

(** ** Numbers and lists *)

Lemma gt0_true (x : number) : gt0 x = true <-> 0 < x.
Proof.
  unfold gt0; destruct (Rlt_dec 0 x); split; intros; auto; discriminate.
Qed.

Lemma gt0_false (x : number) : gt0 x = false <-> x <= 0.
Proof.
  unfold gt0; destruct (Rlt_dec 0 x); split; intros; auto; try discriminate; lra.
Qed.

Lemma gt0_10 : gt0 10 = true.
Proof. apply gt0_true; lra. Qed.

Lemma gt0_0 : gt0 0 = false.
Proof. apply gt0_false; lra. Qed.

Lemma since_app (before new : list ctx.Op) :
  since before (before ++ new)%list = new.
Proof.
  unfold since. induction before as [|op before IH]; simpl; auto.
Qed.

(** The sine of a real is no larger than the real, in absolute value. *)
Lemma Rabs_sin_le (u : R) : Rabs (sin u) <= Rabs u.
Proof.
  assert (pos : forall v, 0 < v -> - v <= sin v <= v).
  { intros v Hv. split; [|left; now apply sin_lt_x].
    destruct (Rle_lt_dec v 1) as [small|big].
    - assert (0 <= sin v); [|lra].
      apply sin_ge_0; [lra|]. pose proof PI2_1. lra.
    - pose proof (SIN_bound v). lra. }
  destruct (Rtotal_order u 0) as [neg|[zero|posu]].
  - rewrite (Rabs_left u) by assumption.
    apply Rabs_le. destruct (pos (- u)) as [lo hi]; [lra|].
    rewrite sin_neg in lo, hi. lra.
  - subst u. rewrite sin_0, Rabs_R0. lra.
  - rewrite (Rabs_right u) by lra.
    apply Rabs_le. destruct (pos u) as [lo hi]; [lra|]. lra.
Qed.

(** ** The render routines *)

(** Both routines are straight-line code under four tests; unfolding them
    and splitting on the tests leaves the list of operations in the open. *)
Ltac open_render :=
  unfold preview_ops, export_ops, drawText, downloadImage, drawText_ctx,
    downloadImage_ctx, painted_on, canvas_with; simpl;
  unfold ctx.seq, ctx.when, ctx.clearRect, ctx.fillText, ctx.strokeText,
    ctx.paint, ctx.skip; simpl.

Ltac settle_ops :=
  simpl; repeat rewrite <- app_assoc; simpl; rewrite since_app.

Ltac by_tests s :=
  destruct (shadowEnabled s), (gt0 (border2Width s)), (gt0 (border1Width s)),
    (textColorType s); settle_ops.

(** How far the host's cosine of its own quarter turn is from zero, given
    how far [Math.PI] is from pi and [Math.cos] from the cosine. *)
Lemma cos_quarter_turn (eps_pi eps_cos : R) :
  Rabs (Math_PI - PI) <= eps_pi ->
  (forall t, Rabs (Math_cos t - cos t) <= eps_cos) ->
  Rabs (Math_cos (90 * Math_PI / 180)) <= eps_cos + eps_pi / 2.
Proof.
  intros near_pi near_cos.
  set (t := 90 * Math_PI / 180).
  replace (Math_cos t) with ((Math_cos t - cos t) + cos t) by ring.
  eapply Rle_trans; [apply Rabs_triang|].
  apply Rplus_le_compat; [apply near_cos|].
  rewrite <- (sin_shift t).
  eapply Rle_trans; [apply Rabs_sin_le|].
  replace (PI / 2 - t) with ((-1 / 2) * (Math_PI - PI)) by (unfold t; field).
  rewrite Rabs_mult.
  replace (Rabs (-1 / 2)) with (1 / 2).
  - lra.
  - rewrite Rabs_left; lra.
Qed.


(** C2. Every stroke pass that runs sets the line width to the configured
    width times the scale times two: the scale is 1 on the preview and
    [export width / preview width] on export.  With a preview 800 wide and
    an export canvas 1920 wide the scale is 2.4, and an outer stroke
    configured at 10 is drawn 48 wide. *)
Theorem stroke_width_is_twice_scaled_width :
  forall (s : AppState) (w h : Z) (cx : ctx.Context),
    stroke_widths (preview_ops s w h cx)
    = ((if gt0 (border2Width s) then [border2Width s * 1 * 2] else [])
       ++ (if gt0 (border1Width s) then [border1Width s * 1 * 2] else []))%list
    /\ (forall (preview : Canvas) (files : list (Download Blob)),
          let scale := export_scale w preview in
          stroke_widths (export_ops s preview w h cx files)
          = ((if gt0 (border2Width s) then [border2Width s * scale * 2] else [])
             ++ (if gt0 (border1Width s) then [border1Width s * scale * 2]
                 else []))%list)
    /\ (forall (preview_height : Z) (preview_cx : option ctx.Context)
               (files : list (Download Blob)),
          let preview :=
            {| width := 800; height := preview_height;
               context2d := preview_cx |} in
          export_scale 1920 preview = 2.4
          /\ stroke_widths
               (export_ops (setBorder1Width 0 (setBorder2Width 10 s))
                           preview 1920 h cx files)
             = [48]).
Proof.
  intros s w h cx; split; [|split].
  - open_render; by_tests s; simpl; same_reals.
  - intros preview files scale; subst scale; unfold export_scale.
    open_render; by_tests s; simpl; same_reals.
  - intros ph pcx files preview; subst preview; unfold export_scale; simpl.
    split; [lra|].
    open_render. rewrite gt0_10.
    replace (gt0 0) with false by (symmetry; apply gt0_false; lra).
    destruct (shadowEnabled s), (textColorType s); settle_ops; simpl;
      same_reals.
Qed.



Lemma text_gradient_squared_up (eps_pi eps_cos : R) (s : AppState)
  (scale : number) (w h : Z) :
  Rabs (Math_PI - PI) <= eps_pi ->
  (forall t, Rabs (Math_cos t - cos t) <= eps_cos) ->
  Math_sin 0 = 0 ->
  squared_up s scale (eps_cos + eps_pi / 2) (text_gradient s scale w h).
Proof.
  intros near_pi near_cos sin0.
  unfold squared_up, upright_within, level, text_gradient, axis_gradient,
    measured_width; simpl.
  split; intros angle; rewrite angle.
  - match goal with
    | |- Rabs (?x + ?W / 2 * ?c - (?x - ?W / 2 * ?c)) <= _ =>
      replace (x + W / 2 * c - (x - W / 2 * c)) with (W * c) by field
    end.
    rewrite Rabs_mult.
    apply Rmult_le_compat_l; [apply Rabs_pos|].
    now apply cos_quarter_turn.
  - replace (0 * Math_PI / 180) with 0 by field.
    rewrite sin0. ring.
Qed.

(** With the exact pi and cosine the ends of the axis at 90 degrees have
    the same abscissa. *)
Corollary exact_quarter_turn_is_upright (s : AppState) (scale : number)
  (w h : Z) :
  Math_PI = PI ->
  (forall t, Math_cos t = cos t) ->
  Math_sin 0 = 0 ->
  textGradientAngle s = 90 ->
  ctx.gx0 (text_gradient s scale w h) = ctx.gx1 (text_gradient s scale w h).
Proof.
  intros exact_pi exact_cos sin0 angle.
  destruct (@text_gradient_squared_up 0 0 s scale w h) as [upright _]; auto.
  - rewrite exact_pi. replace (PI - PI) with 0 by ring. rewrite Rabs_R0. lra.
  - intros t. rewrite exact_cos. replace (cos t - cos t) with 0 by ring.
    rewrite Rabs_R0. lra.
  - specialize (upright angle). unfold upright_within in upright.
    replace (Rabs (measured_width s scale) * (0 + 0 / 2)) with 0 in upright
      by field.
    pose proof (Rabs_pos (ctx.gx1 (text_gradient s scale w h)
                          - ctx.gx0 (text_gradient s scale w h))) as pos.
    assert (zero : Rabs (ctx.gx1 (text_gradient s scale w h)
                         - ctx.gx0 (text_gradient s scale w h)) = 0) by lra.
    destruct (Req_dec (ctx.gx1 (text_gradient s scale w h)
                       - ctx.gx0 (text_gradient s scale w h)) 0) as [same|diff].
    + lra.
    + apply Rabs_no_R0 in diff. contradiction.
Qed.


(** C9. Called without an export canvas, without a 2D context on it, or
    without a preview canvas, the export returns with the page as it was:
    nothing is drawn and no file is handed over. *)
Theorem export_without_surface_does_nothing :
  forall (s : AppState) (page : Page Blob),
    no_export_surface page ->
    downloadImage s page = page
    /\ painted_on (downloadCanvasRef (downloadImage s page))
       = painted_on (downloadCanvasRef page)
    /\ downloads (downloadImage s page) = downloads page.
Proof.
  intros s page missing.
  assert (same : downloadImage s page = page).
  { unfold downloadImage.
    destruct missing as [none|[[dc [some nocx]]|none]].
    - rewrite none. reflexivity.
    - rewrite some, nocx. reflexivity.
    - rewrite none.
      destruct (downloadCanvasRef page) as [dc|]; [|reflexivity].
      destruct (context2d dc); reflexivity. }
  rewrite same. auto.
Qed.

(** ** The render routines: further properties *)

(** X12. The render routines read the state only through the cells in the
    dependency list of the effect that redraws the preview: two states
    that agree on those cells draw the same preview and export the same
    page, so no change the effect ignores can leave the preview stale. *)
Theorem render_reads_only_its_dependencies :
  forall (s s' : AppState),
    render_deps s = render_deps s' ->
    (forall targetCanvas, drawText s targetCanvas = drawText s' targetCanvas)
    /\ (forall page, downloadImage s page = downloadImage s' page).
Proof.
  intros s s'. destruct s, s'; unfold render_deps; simpl.
  intros same. injection same. intros. subst. split; reflexivity.
Qed.

Lemma export_at_scale_one (s : AppState) (downloadCanvas preview : Canvas)
  (cx : ctx.Context) :
  width preview = width downloadCanvas ->
  width downloadCanvas <> 0%Z ->
  downloadImage_ctx measureText Math_PI Math_cos Math_sin s downloadCanvas
                    preview cx
  = drawText_ctx measureText Math_PI Math_cos Math_sin s downloadCanvas cx.
Proof.
  intros same nonzero. unfold downloadImage_ctx, drawText_ctx; cbv zeta.
  rewrite same.
  replace (IZR (width downloadCanvas) / IZR (width downloadCanvas)) with 1
    by (field; now apply not_0_IZR).
  rewrite ?Rmult_1_r. reflexivity.
Qed.

(** X13. An export onto a canvas as wide as the preview canvas, of width
    other than 0, paints exactly what the preview routine paints on it: at
    scale 1 the two routines are one. *)
Theorem export_at_preview_width_is_preview :
  forall (s : AppState) (preview : Canvas) (w h : Z) (cx : ctx.Context)
         (files : list (Download Blob)),
    width preview = w ->
    w <> 0%Z ->
    export_ops s preview w h cx files = preview_ops s w h cx.
Proof.
  intros s preview w h cx files same nonzero.
  change (since (ctx.painted cx)
            (ctx.painted
               (downloadImage_ctx measureText Math_PI Math_cos Math_sin s
                                  (canvas_with w h cx) preview cx))
          = since (ctx.painted cx)
              (ctx.painted
                 (drawText_ctx measureText Math_PI Math_cos Math_sin s
                               (canvas_with w h cx) cx))).
  rewrite export_at_scale_one; auto.
Qed.

(** ** The render routines on the host *)

(** The host routines are the same straight-line code; the tests now
    include whether the host parses the two gradient colours. *)
Ltac open_host :=
  unfold host_preview_ops, host_export_ops, export_page, drawText_host,
    downloadImage_host, drawText_host_ctx, downloadImage_host_ctx, painted_on,
    canvas_with; simpl;
  unfold and_then, run, host_set_fillStyle, host_set_strokeStyle,
    host_set_shadowColor, host_addColorStop, taken_style, taken_color,
    parses_color,
    ctx.seq, ctx.when, ctx.clearRect, ctx.fillText, ctx.strokeText,
    ctx.paint, ctx.skip; simpl.

Ltac open_host_ctx :=
  unfold previewed_on_host, exported_on_host, drawText_host_ctx,
    downloadImage_host_ctx;
  unfold and_then, run, host_set_fillStyle, host_set_strokeStyle,
    host_set_shadowColor, host_addColorStop, taken_style, taken_color,
    parses_color,
    ctx.seq, ctx.when, ctx.clearRect, ctx.fillText, ctx.strokeText,
    ctx.paint, ctx.skip; simpl.

(** The last test first: each split then leaves a smaller term to the
    next. *)
Ltac by_gradient_colours s :=
  destruct (textColorType s);
  [|destruct (parses (textGradientStart s));
    [destruct (parses (textGradientEnd s))|]];
  simpl.

Ltac by_host_tests s :=
  by_gradient_colours s;
  destruct (gt0 (border1Width s)); simpl;
  destruct (gt0 (border2Width s)); simpl;
  destruct (shadowEnabled s); simpl.

Ltac settle_host :=
  simpl; repeat rewrite <- app_assoc; simpl; rewrite ?since_app; simpl.

Ltac by_parses :=
  repeat match goal with
         | |- context [if parses ?c then _ else _] => destruct (parses c)
         end.

Ltac use_parsed all :=
  simpl in all;
  repeat match goal with
         | H : (_ && _)%bool = true |- _ =>
           let one := fresh "one" in
           apply andb_prop in H; destruct H as [H one]
         end;
  repeat match goal with
         | H : parses _ = true |- _ => rewrite H; clear H
         end.

(** Where the host parses every colour a render uses, the host's routines
    return, with what the routines that take the colours as written give. *)
Lemma parsed_colours_render_as_written (s : AppState) :
  colours_parse s = true ->
  (forall targetCanvas,
      drawText_host s targetCanvas = Returns (drawText s targetCanvas))
  /\ (forall page,
         downloadImage_host s page = Returns (downloadImage s page)).
Proof.
  unfold colours_parse, paints_parse, fill_reached. intros all.
  split.
  - intros [canvas|]; [|reflexivity].
    unfold drawText_host, drawText, drawText_host_ctx, drawText_ctx.
    destruct (context2d canvas) as [cx|]; [|reflexivity].
    unfold and_then, run, host_set_fillStyle, host_set_strokeStyle,
      host_set_shadowColor, host_addColorStop, taken_style, taken_color,
      parses_color, ctx.seq, ctx.when.
    destruct (shadowEnabled s), (gt0 (border2Width s)),
      (gt0 (border1Width s)), (textColorType s);
      use_parsed all; reflexivity.
  - intros page.
    unfold downloadImage_host, downloadImage, downloadImage_host_ctx,
      downloadImage_ctx.
    destruct (downloadCanvasRef page) as [dc|]; [|reflexivity].
    destruct (context2d dc) as [cx|]; [|reflexivity].
    destruct (canvasRef page) as [pv|]; [|reflexivity].
    unfold and_then, run, host_set_fillStyle, host_set_strokeStyle,
      host_set_shadowColor, host_addColorStop, taken_style, taken_color,
      parses_color, ctx.seq, ctx.when.
    destruct (shadowEnabled s), (gt0 (border2Width s)),
      (gt0 (border1Width s)), (textColorType s);
      use_parsed all; reflexivity.
Qed.

(** C1. On the host a render on a canvas that has a context issues its
    passes in one order: the clear, the shadow pass exactly when the shadow
    is enabled, the outer stroke exactly when [border2Width > 0], the inner
    stroke exactly when [border1Width > 0], then the fill, last.  The fill
    pass is there exactly when the render gets to it: always with a plain
    text colour, and with a gradient when the host parses both gradient
    colours.  Otherwise [addColorStop] throws a [SyntaxError] after the
    strokes, and the render ends with no fill pass.  A pass whose colour the
    host does not parse is drawn with the paint in force before it.  This
    holds of the preview routine and of the export routine. *)
Theorem host_render_passes_in_order :
  forall (s : AppState) (w h : Z) (cx : ctx.Context),
    (thrown (drawText_host s (Some (canvas_with w h cx))) = ends_as s
     /\ host_layered s cx (map pass_of (host_preview_ops s w h cx)))
    /\ forall (preview : Canvas) (files : list (Download Blob)),
         thrown (downloadImage_host s (export_page preview w h cx files))
         = ends_as s
         /\ host_layered s cx
              (map pass_of (host_export_ops s preview w h cx files)).
Proof.
  intros s w h cx. split; [|intros preview files];
    unfold host_layered, host_text_fill, ends_as, fill_reached,
      passes_before_fill, inner_stroke_paint, outer_stroke_paint,
      fill_after_shadow, painted_with;
    open_host; by_host_tests s; settle_host; (split; [reflexivity|]);
      first [reflexivity | eexists; (split; [|reflexivity]); simpl; eauto].
Qed.

(** C8. With an inner-stroke width of 0 a render on the host gives what
    the render without the inner-stroke pass gives, canvas for canvas and
    file for file, and ends as it ends.  Whether a render raises an error
    does not depend on the text or on the widths: it returns for every text
    and all widths with a plain text colour, and with a gradient it returns
    when the host parses both gradient colours and raises a [SyntaxError]
    when it does not.  With the shadow disabled and both widths 0 a render
    that returns clears the surface and makes the fill pass, nothing else,
    whatever the text. *)
Theorem host_zero_inner_width_omits_inner_stroke :
  forall (s : AppState),
    border1Width s = 0 ->
    (forall targetCanvas,
        drawText_host s targetCanvas
        = drawText_host_omitting_inner_stroke s targetCanvas)
    /\ (forall page,
           downloadImage_host s page
           = downloadImage_host_omitting_inner_stroke s page)
    /\ (forall w h cx,
           thrown (drawText_host s (Some (canvas_with w h cx))) = ends_as s)
    /\ (forall preview w h cx files,
           thrown (downloadImage_host s (export_page preview w h cx files))
           = ends_as s)
    /\ (shadowEnabled s = false -> border2Width s = 0 ->
        fill_reached s = true ->
        forall w h cx, exists st,
          host_preview_ops s w h cx
          = [ctx.ClearRect 0 0 (IZR w) (IZR h);
             ctx.FillText st (text s) (IZR w / 2) (IZR h / 2)]).
Proof.
  intros s zero.
  assert (skip1 : gt0 (border1Width s) = false) by (rewrite zero; apply gt0_0).
  split; [|split; [|split; [|split]]].
  - intros [canvas|]; [|reflexivity].
    unfold drawText_host, drawText_host_omitting_inner_stroke,
      drawText_host_ctx, drawText_host_ctx_omitting_inner_stroke.
    destruct (context2d canvas); [|reflexivity].
    rewrite skip1. reflexivity.
  - intros page.
    unfold downloadImage_host, downloadImage_host_omitting_inner_stroke,
      downloadImage_host_ctx, downloadImage_host_ctx_omitting_inner_stroke.
    destruct (downloadCanvasRef page) as [dc|]; [|reflexivity].
    destruct (context2d dc); [|reflexivity].
    destruct (canvasRef page); [|reflexivity].
    rewrite skip1. reflexivity.
  - intros w h cx. unfold ends_as, fill_reached. open_host.
    by_gradient_colours s; reflexivity.
  - intros preview w h cx files. unfold ends_as, fill_reached. open_host.
    by_gradient_colours s; reflexivity.
  - intros off zero2 there w h cx. revert there. unfold fill_reached.
    open_host. rewrite off, skip1, zero2, gt0_0.
    by_gradient_colours s; intros there; try discriminate; settle_host;
      eexists; reflexivity.
Qed.

Ltac idle_now := unfold shadow_idle; simpl; solve [repeat split; auto].

Ltac all_idle :=
  repeat first [ apply Forall_nil
               | apply Forall_cons; [first [exact I | idle_now]|] ].

(** A render that starts with no shadow in force ends with none, whether
    it returns or throws. *)
Lemma host_render_keeps_idle (s : AppState) (canvas preview : Canvas)
  (cx : ctx.Context) :
  parses "transparent" = true ->
  shadow_idle (ctx.state cx) ->
  shadow_idle (ctx.state (reached (drawText_host_ctx s canvas cx)))
  /\ shadow_idle
       (ctx.state (reached (downloadImage_host_ctx s canvas preview cx))).
Proof.
  intros keyword (color & blur & offx & offy).
  open_host_ctx. rewrite keyword.
  by_host_tests s; split; idle_now.
Qed.

(** X14. No render leaves a shadow behind for a later one.  On a host that
    parses [transparent], from a context with no shadow in force, any
    succession of previews, and any succession of exports, of any states,
    those that throw included, leaves no shadow in force.  A render that
    starts so draws under a shadow only the fill of its shadow pass, which
    comes right after the clear: with the shadow disabled every operation
    it issues is drawn with transparent shadow colour, no blur and no
    offset. *)
Theorem no_render_leaks_a_shadow :
  parses "transparent" = true ->
  forall (cx : ctx.Context),
    shadow_idle (ctx.state cx) ->
    (forall (states : list AppState) (canvas : Canvas),
        shadow_idle
          (ctx.state
             (fold_left (fun c s => reached (drawText_host_ctx s canvas c))
                        states cx)))
    /\ (forall (states : list AppState) (downloadCanvas preview : Canvas),
           shadow_idle
             (ctx.state
                (fold_left
                   (fun c s =>
                      reached (downloadImage_host_ctx s downloadCanvas
                                                      preview c))
                   states cx)))
    /\ (forall (s : AppState) (w h : Z),
           shadow_pass_only s w h (host_preview_ops s w h cx))
    /\ (forall (s : AppState) (preview : Canvas) (w h : Z)
               (files : list (Download Blob)),
           shadow_pass_only s w h (host_export_ops s preview w h cx files)).
Proof.
  intros keyword cx start. split; [|split; [|split]].
  - intros states canvas. revert cx start.
    induction states as [|s states IH]; simpl; intros cx start; [exact start|].
    apply IH.
    exact (proj1 (@host_render_keeps_idle s canvas canvas cx keyword start)).
  - intros states dc pv. revert cx start.
    induction states as [|s states IH]; simpl; intros cx start; [exact start|].
    apply IH.
    exact (proj2 (@host_render_keeps_idle s dc pv cx keyword start)).
  - intros s w h. destruct start as (color & blur & offx & offy).
    unfold shadow_pass_only. open_host. rewrite keyword.
    by_host_tests s; settle_host;
      first [ do 2 eexists; split; [reflexivity|]; all_idle
            | all_idle ].
  - intros s preview w h files. destruct start as (color & blur & offx & offy).
    unfold shadow_pass_only. open_host. rewrite keyword.
    by_host_tests s; settle_host;
      first [ do 2 eexists; split; [reflexivity|]; all_idle
            | all_idle ].
Qed.

(** What a render draws depends on the context it starts from only through
    the two paints and the shadow. *)
Lemma seen_from_entry (s : AppState) (preview : Canvas) (w h : Z)
  (cx cx' : ctx.Context) (files files' : list (Download Blob)) :
  ctx.strokeStyle (ctx.state cx) = ctx.strokeStyle (ctx.state cx') ->
  ctx.fillStyle (ctx.state cx) = ctx.fillStyle (ctx.state cx') ->
  shadow_of (ctx.state cx) = shadow_of (ctx.state cx') ->
  map seen (host_preview_ops s w h cx) = map seen (host_preview_ops s w h cx')
  /\ map seen (host_export_ops s preview w h cx files)
     = map seen (host_export_ops s preview w h cx' files').
Proof.
  intros stroke fill shadow.
  unfold shadow_of in shadow. injection shadow as color blur offx offy.
  split; open_host; by_host_tests s; settle_host; unfold shadow_of; simpl;
    rewrite ?stroke, ?fill, ?color, ?blur, ?offx, ?offy; reflexivity.
Qed.

(** What a render leaves in the context, from what it found there. *)
Lemma render_leaves (s : AppState) (canvas preview : Canvas) :
  (exists g, forall cx,
      let out := reached (drawText_host_ctx s canvas cx) in
      ctx.strokeStyle (ctx.state out)
      = stroke_left s (ctx.strokeStyle (ctx.state cx))
      /\ ctx.fillStyle (ctx.state out)
         = fill_left s g (ctx.fillStyle (ctx.state cx))
      /\ shadow_of (ctx.state out) = shadow_left s (shadow_of (ctx.state cx)))
  /\ (exists g, forall cx,
         let out := reached (downloadImage_host_ctx s canvas preview cx) in
         ctx.strokeStyle (ctx.state out)
         = stroke_left s (ctx.strokeStyle (ctx.state cx))
         /\ ctx.fillStyle (ctx.state out)
            = fill_left s g (ctx.fillStyle (ctx.state cx))
         /\ shadow_of (ctx.state out)
            = shadow_left s (shadow_of (ctx.state cx))).
Proof.
  split; open_host_ctx;
    unfold stroke_left, fill_left, shadow_left, fill_reached, painted_with,
      shadow_of;
    by_host_tests s; simpl;
    first [ solve [exists (ctx.createLinearGradient 0 0 0 0); intros cx;
                   simpl; repeat split; reflexivity]
          | solve [eexists; intros cx; simpl; repeat split; reflexivity]
          | solve [eexists; intros cx; simpl; repeat split; by_parses;
                   reflexivity] ].
Qed.

(** Leaving twice is leaving once. *)
Lemma left_settles (s : AppState) (g : ctx.Gradient) :
  (forall x, stroke_left s (stroke_left s x) = stroke_left s x)
  /\ (forall x, fill_left s g (fill_left s g x) = fill_left s g x)
  /\ (forall x, shadow_left s (shadow_left s x) = shadow_left s x).
Proof.
  unfold stroke_left, fill_left, shadow_left, painted_with.
  repeat split; intros x;
    destruct (shadowEnabled s), (gt0 (border2Width s)),
      (gt0 (border1Width s)), (textColorType s), (fill_reached s);
    by_parses; reflexivity.
Qed.

(** The paints and the shadow a render leaves are those a second render of
    the same state leaves. *)
Lemma entry_settles (s : AppState) (canvas preview : Canvas)
  (cx : ctx.Context) :
  (let once := reached (drawText_host_ctx s canvas cx) in
   let twice := reached (drawText_host_ctx s canvas once) in
   ctx.strokeStyle (ctx.state twice) = ctx.strokeStyle (ctx.state once)
   /\ ctx.fillStyle (ctx.state twice) = ctx.fillStyle (ctx.state once)
   /\ shadow_of (ctx.state twice) = shadow_of (ctx.state once))
  /\ (let once := reached (downloadImage_host_ctx s canvas preview cx) in
      let twice := reached (downloadImage_host_ctx s canvas preview once) in
      ctx.strokeStyle (ctx.state twice) = ctx.strokeStyle (ctx.state once)
      /\ ctx.fillStyle (ctx.state twice) = ctx.fillStyle (ctx.state once)
      /\ shadow_of (ctx.state twice) = shadow_of (ctx.state once)).
Proof.
  destruct (render_leaves s canvas preview) as [[g draw] [g' export]].
  split; intros once twice; subst once twice.
  - destruct (draw cx) as (stroke & fill & shadow).
    destruct (draw (reached (drawText_host_ctx s canvas cx)))
      as (stroke' & fill' & shadow').
    destruct (left_settles s g) as (settle1 & settle2 & settle3).
    rewrite stroke', fill', shadow', stroke, fill, shadow.
    rewrite settle1, settle2, settle3. auto.
  - destruct (export cx) as (stroke & fill & shadow).
    destruct (export (reached (downloadImage_host_ctx s canvas preview cx)))
      as (stroke' & fill' & shadow').
    destruct (left_settles s g') as (settle1 & settle2 & settle3).
    rewrite stroke', fill', shadow', stroke, fill, shadow.
    rewrite settle1, settle2, settle3. auto.
Qed.

(** With every paint parsed, what a render draws depends on the context it
    starts from only through the shadow, and only with the shadow
    disabled. *)
Lemma seen_parsed (s : AppState) (preview : Canvas) (w h : Z)
  (cx cx' : ctx.Context) (files files' : list (Download Blob)) :
  paints_parse s = true ->
  shadowEnabled s = true
  \/ shadow_of (ctx.state cx) = shadow_of (ctx.state cx') ->
  map seen (host_preview_ops s w h cx) = map seen (host_preview_ops s w h cx')
  /\ map seen (host_export_ops s preview w h cx files)
     = map seen (host_export_ops s preview w h cx' files').
Proof.
  unfold paints_parse. intros parsed how.
  apply andb_prop in parsed; destruct parsed as [parsed fill].
  apply andb_prop in parsed; destruct parsed as [parsed inner].
  apply andb_prop in parsed; destruct parsed as [keywords outer].
  destruct (shadowEnabled s) eqn:enabled.
  - apply andb_prop in keywords; destruct keywords as [black transparent].
    split; open_host; rewrite enabled, black, transparent;
      destruct (gt0 (border2Width s)), (gt0 (border1Width s));
      rewrite ?outer, ?inner;
      (destruct (textColorType s);
       [rewrite fill
       |destruct (parses (textGradientStart s)),
          (parses (textGradientEnd s))]);
      settle_host; reflexivity.
  - destruct how as [on|same]; [discriminate|].
    unfold shadow_of in same. injection same as color blur offx offy.
    split; open_host; rewrite enabled;
      destruct (gt0 (border2Width s)), (gt0 (border1Width s));
      rewrite ?outer, ?inner;
      (destruct (textColorType s);
       [rewrite fill
       |destruct (parses (textGradientStart s)),
          (parses (textGradientEnd s))]);
      settle_host; unfold shadow_of; simpl;
      rewrite ?color, ?blur, ?offx, ?offy; reflexivity.
Qed.

Lemma shadow_after_host_render (s : AppState) (canvas preview : Canvas)
  (cx : ctx.Context) :
  shadowEnabled s = false ->
  shadow_of (ctx.state (reached (drawText_host_ctx s canvas cx)))
  = shadow_of (ctx.state cx)
  /\ shadow_of
       (ctx.state (reached (downloadImage_host_ctx s canvas preview cx)))
     = shadow_of (ctx.state cx).
Proof.
  intros off. open_host_ctx. rewrite off.
  destruct (gt0 (border2Width s)), (gt0 (border1Width s));
    by_gradient_colours s; split; reflexivity.
Qed.

(** X15. Rendering an unchanged state again on the host.  Where the host
    parses every colour the render assigns to a paint, the operations of
    the second render are those of the first, with the same text, position,
    font, alignment, baseline, paint, line settings and shadow: what the
    first render left in the context does not show in the second.  Without
    that a paint the host ignored lets the context show through, once: on
    every host and for every state the third render repeats the second.
    Both hold on the preview and on export, for renders that throw as for
    renders that return. *)
Theorem host_rerender_repaints_the_same :
  forall (s : AppState) (w h : Z) (cx : ctx.Context),
    (paints_parse s = true ->
     map seen (host_preview_ops s w h (previewed_on_host s w h cx))
     = map seen (host_preview_ops s w h cx))
    /\ map seen
           (host_preview_ops s w h
              (previewed_on_host s w h (previewed_on_host s w h cx)))
       = map seen (host_preview_ops s w h (previewed_on_host s w h cx))
    /\ forall (preview : Canvas) (files files' : list (Download Blob)),
         (paints_parse s = true ->
          map seen
              (host_export_ops s preview w h
                 (exported_on_host s preview w h cx) files')
          = map seen (host_export_ops s preview w h cx files))
         /\ map seen
                (host_export_ops s preview w h
                   (exported_on_host s preview w h
                      (exported_on_host s preview w h cx))
                   files')
            = map seen
                  (host_export_ops s preview w h
                     (exported_on_host s preview w h cx) files).
Proof.
  intros s w h cx. split; [|split; [|intros preview files files'; split]].
  - intros parsed.
    refine (proj1 (@seen_parsed s (canvas_with w h cx) w h
                     (previewed_on_host s w h cx) cx
                     (@nil (Download Blob)) (@nil (Download Blob)) parsed _)).
    destruct (shadowEnabled s) eqn:enabled; [now left|right].
    exact (proj1 (@shadow_after_host_render s (canvas_with w h cx)
                    (canvas_with w h cx) cx enabled)).
  - destruct (proj1 (@entry_settles s (canvas_with w h cx)
                       (canvas_with w h cx) cx))
      as (stroke & fill & shadow).
    exact (proj1 (@seen_from_entry s (canvas_with w h cx) w h
                    (previewed_on_host s w h (previewed_on_host s w h cx))
                    (previewed_on_host s w h cx)
                    (@nil (Download Blob)) (@nil (Download Blob))
                    stroke fill shadow)).
  - intros parsed.
    refine (proj2 (@seen_parsed s preview w h
                     (exported_on_host s preview w h cx) cx
                     files' files parsed _)).
    destruct (shadowEnabled s) eqn:enabled; [now left|right].
    exact (proj2 (@shadow_after_host_render s (canvas_with w h cx)
                    preview cx enabled)).
  - destruct (proj2 (@entry_settles s (canvas_with w h cx) preview cx))
      as (stroke & fill & shadow).
    exact (proj2 (@seen_from_entry s preview w h
                    (exported_on_host s preview w h
                       (exported_on_host s preview w h cx))
                    (exported_on_host s preview w h cx)
                    files' files stroke fill shadow)).
Qed.

(** X16. An export on the host with both canvases in place never touches
    the preview canvas, keeps the size of the export canvas and the files
    handed over before, paints at least the clear, and hands over at most
    one file more.  It hands over none when a gradient colour does not
    parse, whatever the encoder would return: the call throws before it
    gets to [toBlob], with the canvas painted up to the strokes.  It hands
    over none when the encoder returns no blob, the canvas being painted
    all the same.  Otherwise it hands over one file, which holds the canvas
    as just painted. *)
Theorem host_export_hands_over_at_most_one_file :
  forall (s : AppState) (preview : Canvas) (w h : Z) (cx : ctx.Context)
         (files : list (Download Blob)),
    let out := downloadImage_host s (export_page preview w h cx files) in
    canvasRef (reached out) = Some preview
    /\ thrown out = ends_as s
    /\ exists cx',
         downloadCanvasRef (reached out) = Some (canvas_with w h cx')
         /\ ctx.painted cx'
            = (ctx.painted cx ++ host_export_ops s preview w h cx files)%list
         /\ host_export_ops s preview w h cx files <> []
         /\ (fill_reached s = false -> downloads (reached out) = files)
         /\ (toBlob (canvas_with w h cx') = None ->
             downloads (reached out) = files)
         /\ (fill_reached s = true ->
             forall blob, toBlob (canvas_with w h cx') = Some blob ->
             downloads (reached out)
             = (files ++ [{| href := blob;
                             download := download_name Date_now |}])%list).
Proof.
  intros s preview w h cx files out; subst out.
  unfold ends_as, fill_reached. open_host.
  unfold with_context; simpl.
  by_host_tests s; simpl;
    (split; [reflexivity|]); (split; [reflexivity|]);
    (eexists; split; [reflexivity|]); rewrite <- ?app_assoc;
    simpl; rewrite since_app;
    (split; [reflexivity|]); (split; [discriminate|]);
    (split; [|split]);
    try discriminate; try reflexivity;
    try (intros none; rewrite none; reflexivity);
    try (intros _ blob some; rewrite some; reflexivity).
Qed.

End RenderSpec.

(** A host that parses every string renders as the routines that take the
    colours as written. *)
Lemma host_that_parses_all_renders_as_written :
  forall (measure : ctx.Font -> string -> number) (pi : number)
         (cosine sine : number -> number) (Blob : Type)
         (toBlob : Canvas -> option Blob) (now : Z) (s : AppState),
    (forall targetCanvas,
        drawText_host measure pi cosine sine (fun _ => true) s targetCanvas
        = Returns (drawText measure pi cosine sine s targetCanvas))
    /\ (forall page,
           downloadImage_host measure pi cosine sine toBlob now
                              (fun _ => true) s page
           = Returns (downloadImage measure pi cosine sine toBlob now s page)).
Proof.
  intros measure pi cosine sine Blob toBlob now s.
  apply parsed_colours_render_as_written.
  unfold colours_parse, paints_parse, fill_reached.
  destruct (shadowEnabled s), (gt0 (border2Width s)), (gt0 (border1Width s)),
    (textColorType s); reflexivity.
Qed.

(** The export of the initial state from the initial page, on a host that
    always encodes and reads the clock at 0: one file, and the two strokes
    18 and 8 wide drawn at 2.4 times twice that. *)
Example export_of_initial_page :
  forall (measure : ctx.Font -> string -> number) (pi : number)
         (cosine sine : number -> number),
    let page :=
      downloadImage measure pi cosine sine encode 0 initial_state
                              (initial_page Canvas) in
    map (@download Canvas) (downloads page) = ["decorated-text-0.png"]
    /\ stroke_widths (painted_on (downloadCanvasRef page)) = [86.4; 38.4].
Proof.
  intros measure pi cosine sine page; subst page; split; [reflexivity|].
  unfold downloadImage, downloadImage_ctx, painted_on, initial_page;
    simpl.
  unfold ctx.seq, ctx.when, ctx.clearRect, ctx.fillText, ctx.strokeText,
    ctx.paint, ctx.skip; simpl.
  replace (gt0 18) with true by (symmetry; apply gt0_true; lra).
  replace (gt0 8) with true by (symmetry; apply gt0_true; lra).
  simpl. same_reals.
Qed.


(** The export scenario in binary64: 1920 / 800 is the double nearest to
    2.4 and the line width of a stroke configured at 10 is the double 48,
    in the order the code multiplies and in the order the claim does. *)
Lemma export_line_width_binary64 :
  lineWidth_binary64 10 1920 800 = 48%float
  /\ (10 * (1920 / 800) * 2)%float = 48%float
  /\ (1920 / 800)%float = 0x1.3333333333333p+1%float.
Proof. repeat split; reflexivity. Qed.

(** ** The presets *)

(** Reading a cell after a guarded assignment: a setter of another cell
    does not show, the cell's own setter shows when the value is defined. *)
Lemma read_past_if_defined {A B} (f : AppState -> B)
  (set : A -> AppState -> AppState) (o : option A) (s : AppState) :
  (forall v s0, f (set v s0) = f s0) ->
  f (if_defined o set s) = f s.
Proof. intros other; destruct o; simpl; auto. Qed.

Lemma read_at_if_defined {A} (f : AppState -> A)
  (set : A -> AppState -> AppState) (o : option A) (s : AppState) :
  (forall v s0, f (set v s0) = v) ->
  f (if_defined o set s) = overridden o (f s).
Proof. intros own; destruct o; simpl; auto. Qed.

Ltac read_cell :=
  repeat match goal with
         | |- context [?f (if_defined ?o ?set ?s)] =>
           first [ rewrite (read_past_if_defined f set o s)
                     by (intros; reflexivity)
                 | rewrite (read_at_if_defined f set o s)
                     by (intros; reflexivity) ]
         end;
  reflexivity.

Lemma loadPreset_merged (p : Preset) (s : AppState) :
  merged (config p) s (loadPreset p s).
Proof.
  unfold merged, loadPreset; cbv zeta.
  repeat split; read_cell.
Qed.

(** C5. Loading a preset replaces the cells for which the preset's config
    defines a value and leaves every other cell as it was.  With the text
    "Hello" and a preset that defines only an inner outline, black and 5
    wide, the text is still "Hello" after the load and the inner outline is
    black and 5 wide. *)
Theorem loadPreset_overrides_defined_fields_only :
  forall (p : Preset) (s : AppState),
    merged (config p) s (loadPreset p s)
    /\ let hello := setText "Hello" s in
       text (loadPreset black_outline_preset hello) = "Hello"
       /\ border1Color (loadPreset black_outline_preset hello) = "#000000"
       /\ border1Width (loadPreset black_outline_preset hello) = 5
       /\ loadPreset black_outline_preset hello
          = setBorder1Width 5 (setBorder1Color "#000000" hello).
Proof.
  intros p s; split; [apply loadPreset_merged|].
  cbv zeta; repeat split.
Qed.

Lemma last_snoc {A} (l : list A) (x d : A) : last (l ++ [x]) d = x.
Proof.
  induction l as [|y l IH]; simpl; auto.
  destruct (l ++ [x])%list eqn:E; auto.
  destruct l; discriminate.
Qed.

(** The presets the component starts with and the one a save adds carry
    every property the type declares; the preset of the scenario does not,
    and [loadPreset] takes it all the same. *)
Example presets_against_declared_type :
  forallb (fun p => PresetConfig.declared (config p))
          (presets (savePreset (Some "mine") initial_state)) = true
  /\ PresetConfig.declared (config black_outline_preset) = false.
Proof. split; reflexivity. Qed.

(** C10. Loading a preset never changes the text, the font size or the
    font family, whatever the preset; in particular not for a preset that
    the save operation put in the list.  The save operation builds the same
    preset whatever the text, font size and font family are at the time. *)
Theorem saved_preset_keeps_text_and_font :
  forall (n : string) (s cur : AppState) (p : Preset),
    n <> "" ->
    In p (presets (savePreset (Some n) s)) ->
    (text (loadPreset p cur) = text cur
     /\ fontSize (loadPreset p cur) = fontSize cur
     /\ fontFamily (loadPreset p cur) = fontFamily cur)
    /\ newest_preset (savePreset (Some n) s) <> None
    /\ forall (t : string) (size : number) (fam : string),
         newest_preset
           (savePreset (Some n) (setText t (setFontSize size (setFontFamily fam s))))
         = newest_preset (savePreset (Some n) s).
Proof.
  intros n s cur p named listed.
  split; [|split].
  - destruct (loadPreset_merged p cur) as
        (_ & _ & _ & _ & _ & _ & _ & _ & _ & _ & _ & _ & _ & _
         & keep_text & keep_size & keep_family & _).
    auto.
  - unfold newest_preset, savePreset.
    destruct (String.eqb_spec n ""); [contradiction|]. simpl.
    rewrite map_app; simpl. rewrite last_snoc. discriminate.
  - intros t size fam. unfold newest_preset, savePreset.
    destruct (String.eqb_spec n ""); [contradiction|]. simpl.
    rewrite !map_app; simpl. rewrite !last_snoc. reflexivity.
Qed.

(** ** The font list *)

Section MapFacts.
Variable V : Type.

Lemma get_set_same (k : string) (v : V) (m : JsMap.t V) :
  JsMap_get k (JsMap.set k v m) = Some v.
Proof.
  unfold JsMap_get. induction m as [|[k' v'] m IH]; simpl.
  - rewrite String.eqb_refl. reflexivity.
  - destruct (String.eqb k' k) eqn:E; simpl; rewrite E; simpl; auto.
Qed.

Lemma get_set_other (k k0 : string) (v : V) (m : JsMap.t V) :
  k0 <> k -> JsMap_get k0 (JsMap.set k v m) = JsMap_get k0 m.
Proof.
  intros other. unfold JsMap_get.
  induction m as [|[k' v'] m IH]; simpl.
  - destruct (String.eqb_spec k k0); [congruence|reflexivity].
  - destruct (String.eqb_spec k' k) as [->|ne]; simpl.
    + destruct (String.eqb_spec k k0); [congruence|reflexivity].
    + destruct (String.eqb_spec k' k0); simpl; auto.
Qed.

Lemma keys_set (k : string) (v : V) (m : JsMap.t V) :
  forall k0, In k0 (JsMap.keys (JsMap.set k v m))
             <-> k0 = k \/ In k0 (JsMap.keys m).
Proof.
  unfold JsMap.keys. induction m as [|[k' v'] m IH]; simpl; intros k0.
  - intuition.
  - destruct (String.eqb_spec k' k) as [->|ne]; simpl.
    + intuition.
    + rewrite IH. intuition.
Qed.

Lemma NoDup_keys_set (k : string) (v : V) (m : JsMap.t V) :
  NoDup (JsMap.keys m) -> NoDup (JsMap.keys (JsMap.set k v m)).
Proof.
  unfold JsMap.keys. induction m as [|[k' v'] m IH]; simpl; intros nd.
  - constructor; [intros []|constructor].
  - inversion nd as [|? ? fresh nd']; subst.
    destruct (String.eqb_spec k' k) as [->|ne]; simpl.
    + constructor; assumption.
    + constructor; [|auto].
      intros again. apply (keys_set k v m) in again.
      destruct again; [congruence|contradiction].
Qed.

(** With distinct keys, membership is lookup. *)
Lemma In_get (m : JsMap.t V) :
  NoDup (JsMap.keys m) ->
  forall k v, In (k, v) m <-> JsMap_get k m = Some v.
Proof.
  unfold JsMap.keys, JsMap_get.
  induction m as [|[k' v'] m IH]; simpl; intros nd k v.
  - split; [intros []|discriminate].
  - inversion nd as [|? ? fresh nd']; subst.
    destruct (String.eqb_spec k' k) as [->|ne]; simpl.
    + split.
      * intros [same|later]; [congruence|].
        exfalso. apply fresh. apply (in_map fst) in later. exact later.
      * intros same. left. congruence.
    + rewrite <- IH by assumption. split; [|auto].
      intros [same|later]; [congruence|assumption].
Qed.

Lemma NoDup_keys_set_all (entries : list (string * V)) :
  forall m, NoDup (JsMap.keys m) -> NoDup (JsMap.keys (set_all entries m)).
Proof.
  unfold set_all. induction entries as [|e entries IH]; simpl; intros m nd.
  - assumption.
  - apply IH. now apply NoDup_keys_set.
Qed.

Lemma find_snoc {A} (f : A -> bool) (l : list A) (x : A) :
  find f (l ++ [x])
  = match find f l with
    | Some y => Some y
    | None => if f x then Some x else None
    end.
Proof.
  induction l as [|y l IH]; simpl; [reflexivity|].
  destruct (f y); auto.
Qed.

(** After the fold a key holds the value of its last entry, or what the
    map held when no entry has the key. *)
Lemma get_set_all (k : string) (entries : list (string * V)) :
  forall m,
    JsMap_get k (set_all entries m)
    = match find (fun kv => String.eqb (fst kv) k) (rev entries) with
      | Some kv => Some (snd kv)
      | None => JsMap_get k m
      end.
Proof.
  unfold set_all.
  induction entries as [|[k' v'] entries IH]; simpl; intros m.
  - reflexivity.
  - rewrite IH, find_snoc; simpl.
    destruct (find _ (rev entries)); [reflexivity|].
    destruct (String.eqb_spec k' k) as [->|ne].
    + apply get_set_same.
    + apply get_set_other. congruence.
Qed.

End MapFacts.

Section SortFacts.
Variable A : Type.
Variable compare : A -> A -> Z.

Let before (a b : A) : Prop := (compare a b <= 0)%Z.

Lemma insert_perm (x : A) (l : list A) :
  Permutation (JsArray.insert compare x l) (x :: l).
Proof.
  induction l as [|y l IH]; simpl.
  - apply Permutation_refl.
  - destruct (compare x y <=? 0)%Z.
    + apply Permutation_refl.
    + eapply perm_trans; [apply perm_skip, IH|apply perm_swap].
Qed.

Lemma sort_perm (l : list A) : Permutation (JsArray.sort compare l) l.
Proof.
  induction l as [|x l IH]; simpl.
  - apply perm_nil.
  - eapply perm_trans; [apply insert_perm|apply perm_skip, IH].
Qed.

(** A comparator orders consistently when of two elements one is before
    the other, and being before carries across a middle element. *)
Hypothesis compare_total :
  forall a b, (0 < compare a b)%Z -> (compare b a <= 0)%Z.
Hypothesis compare_trans :
  forall a b c, (compare a b <= 0)%Z -> (compare b c <= 0)%Z ->
                (compare a c <= 0)%Z.

Lemma insert_sorted (x : A) (l : list A) :
  StronglySorted before l ->
  StronglySorted before (JsArray.insert compare x l).
Proof.
  induction l as [|y l IH]; simpl; intros sorted.
  - constructor; [constructor|constructor].
  - inversion sorted as [|? ? sorted' below]; subst.
    destruct (Z.leb_spec (compare x y) 0) as [le|gt].
    + constructor; [assumption|].
      constructor; [exact le|].
      eapply Forall_impl; [|exact below].
      intros z yz. unfold before in *. eauto.
    + constructor; [auto|].
      eapply Permutation_Forall; [apply Permutation_sym, insert_perm|].
      constructor; [|assumption].
      unfold before. auto.
Qed.

Lemma sort_sorted (l : list A) : StronglySorted before (JsArray.sort compare l).
Proof.
  induction l as [|x l IH]; simpl.
  - constructor.
  - now apply insert_sorted.
Qed.

End SortFacts.

Lemma find_map {A B} (p : B -> bool) (g : A -> B) (l : list A) :
  find p (map g l) = option_map g (find (fun a => p (g a)) l).
Proof.
  induction l as [|a l IH]; simpl; [reflexivity|].
  destruct (p (g a)); auto.
Qed.

Lemma find_true {A} (p : A -> bool) (l : list A) (x : A) :
  find p l = Some x -> p x = true.
Proof. intros found. apply find_some in found. tauto. Qed.

Lemma font_map_keys_distinct (fonts : list LocalFont) :
  NoDup (JsMap.keys (font_map fonts)).
Proof.
  unfold font_map, JsMap.of_entries.
  apply NoDup_keys_set_all. constructor.
Qed.

(** The map holds, under each family, the last font of that family. *)
Lemma font_map_get (f : string) (fonts : list LocalFont) :
  JsMap_get f (font_map fonts) = last_with_family f fonts.
Proof.
  unfold font_map, JsMap.of_entries, last_with_family.
  change (JsMap_get f (set_all (map font_entry fonts) []) = 
          find (fun x => String.eqb (family x) f) (rev fonts)).
  rewrite get_set_all, <- map_rev, find_map; simpl.
  destruct (find _ (rev fonts)) as [x|]; simpl; [|reflexivity].
  destruct x; reflexivity.
Qed.

Lemma font_map_In (fonts : list LocalFont) (k : string) (x : LocalFont) :
  In (k, x) (font_map fonts)
  <-> k = family x /\ last_with_family (family x) fonts = Some x.
Proof.
  rewrite (In_get _ (font_map_keys_distinct fonts)), font_map_get.
  split.
  - intros found.
    assert (k = family x) as ->.
    { apply find_true in found. apply String.eqb_eq in found. auto. }
    auto.
  - intros [-> found]. exact found.
Qed.

Lemma font_map_values (fonts : list LocalFont) (x : LocalFont) :
  In x (JsMap.values (font_map fonts))
  <-> last_with_family (family x) fonts = Some x.
Proof.
  unfold JsMap.values. rewrite in_map_iff. split.
  - intros [[k y] [<- listed]]. simpl. apply font_map_In in listed. tauto.
  - intros found. exists (family x, x). split; [reflexivity|].
    apply font_map_In. auto.
Qed.

Lemma font_map_families (fonts : list LocalFont) :
  map family (JsMap.values (font_map fonts)) = JsMap.keys (font_map fonts).
Proof.
  unfold JsMap.values, JsMap.keys. rewrite map_map.
  apply map_ext_in. intros [k x] listed; simpl.
  apply font_map_In in listed. symmetry. tauto.
Qed.

Lemma uniqueFonts_perm (localeCompare : string -> string -> Z)
  (fonts : list LocalFont) :
  Permutation (uniqueFonts localeCompare fonts)
              (JsMap.values (font_map fonts)).
Proof. unfold uniqueFonts. apply sort_perm. Qed.

Lemma code_compare_total (a b : string) :
  (0 < code_compare a b)%Z -> (code_compare b a <= 0)%Z.
Proof.
  unfold code_compare. rewrite (String.compare_antisym b a).
  destruct (String.compare a b); simpl; lia.
Qed.

Lemma code_compare_trans (a b c : string) :
  (code_compare a b <= 0)%Z -> (code_compare b c <= 0)%Z ->
  (code_compare a c <= 0)%Z.
Proof.
  unfold code_compare.
  destruct (String.compare a b) eqn:ab; [| |lia]; intros _.
  - apply String.compare_eq_iff in ab. subst b. auto.
  - destruct (String.compare b c) eqn:bc; [| |lia]; intros _.
    + apply String.compare_eq_iff in bc. subst c. rewrite ab. lia.
    + apply String_as_OT.cmp_lt in ab, bc.
      pose proof (String_as_OT.lt_trans _ _ _ ab bc) as ac.
      apply String_as_OT.cmp_lt in ac. unfold String_as_OT.cmp in ac.
      rewrite ac. lia.
Qed.

Section FontList.
Variable localeCompare : string -> string -> Z.
Hypothesis localeCompare_total :
  forall a b, (0 < localeCompare a b)%Z -> (localeCompare b a <= 0)%Z.
Hypothesis localeCompare_trans :
  forall a b c, (localeCompare a b <= 0)%Z -> (localeCompare b c <= 0)%Z ->
                (localeCompare a c <= 0)%Z.

(** C4, as the code has it.  The list of host fonts offered for selection
    has one entry per family name, for every family the host enumerated;
    the entry of a family is the last font of that family in enumeration
    order; and the list is sorted by family name in the order of
    [localeCompare], a consistent comparator. *)
Theorem uniqueFonts_last_occurrence_sorted :
  forall (availableFonts : list LocalFont) (s : AppState),
    let out := uniqueFonts localeCompare availableFonts in
    localFonts (fst (loadLocalFonts localeCompare
                       (Some (Resolved availableFonts)) s)) = out
    /\ NoDup (map family out)
    /\ (forall x, In x availableFonts -> In (family x) (map family out))
    /\ last_occurrence_wins availableFonts out
    /\ StronglySorted
         (fun a b => (localeCompare (family a) (family b) <= 0)%Z) out.
Proof.
  intros fonts s out.
  assert (wins : last_occurrence_wins fonts out).
  { intros x. unfold out.
    rewrite <- font_map_values. split; apply Permutation_in.
    - apply uniqueFonts_perm.
    - apply Permutation_sym, uniqueFonts_perm. }
  split; [|split; [|split; [|split]]].
  - unfold loadLocalFonts; simpl. fold out. destruct out; reflexivity.
  - apply (Permutation_NoDup
             (l := map family (JsMap.values (font_map fonts)))).
    + apply Permutation_map, Permutation_sym, uniqueFonts_perm.
    + rewrite font_map_families. apply font_map_keys_distinct.
  - intros x listed.
    destruct (last_with_family (family x) fonts) as [y|] eqn:found.
    + pose proof (find_true _ _ found) as same.
      apply String.eqb_eq in same. rewrite <- same in found |- *.
      apply in_map. apply wins. exact found.
    + unfold last_with_family in found.
      apply in_rev in listed. apply (find_none _ _ found) in listed.
      rewrite String.eqb_refl in listed. discriminate.
  - exact wins.
  - unfold out, uniqueFonts.
    apply (sort_sorted (fun a b => localeCompare (family a) (family b))).
    + intros a b. apply localeCompare_total.
    + intros a b c. apply localeCompare_trans.
Qed.

End FontList.

(** C4, as the specification words it, fails: the host lists Arial Regular
    and then Arial Bold; the list offered holds Arial Bold, the last of the
    family, where the first would be Arial Regular. *)
Lemma first_occurrence_does_not_win :
  uniqueFonts code_compare [arial_regular; arial_bold] = [arial_bold]
  /\ first_with_family "Arial" [arial_regular; arial_bold] = Some arial_regular
  /\ ~ first_occurrence_wins [arial_regular; arial_bold]
         (uniqueFonts code_compare [arial_regular; arial_bold]).
Proof.
  split; [reflexivity|split; [reflexivity|]].
  intros wins. specialize (wins arial_bold (or_introl eq_refl)).
  discriminate wins.
Qed.

(** ** The theorems at work *)

(** The initial state on the two canvases of the page, under a host with
    the exact pi, cosine and sine that measures half an em per character,
    always encodes, and reads the clock at 0. *)
Local Abbreviation previewed s :=
  (preview_ops half_em_measure PI cos sin s 800 450 ctx.fresh).
Local Abbreviation exported s preview files :=
  (export_ops half_em_measure PI cos sin encode 0 s preview 1920 1080
              ctx.fresh files).
Local Abbreviation in_gradient := (setTextColorType gradient initial_state).





(** The initial state with a gradient fill and a start colour one digit
    short, on a host that reads hexadecimal colours: the preview clears,
    makes the shadow pass and both strokes, and ends on a [SyntaxError]
    with no fill pass; the export ends the same way and hands over no
    file. *)
Lemma half_typed_gradient_colour_ends_before_fill :
  thrown (drawText_host half_em_measure PI cos sin hex_or_keyword
                        half_typed_gradient (Some preview_canvas))
  = Some "SyntaxError"
  /\ map pass_of
         (host_preview_ops half_em_measure PI cos sin hex_or_keyword
                           half_typed_gradient 800 450 ctx.fresh)
     = [Cleared;
        Filled (text half_typed_gradient) (ctx.Solid (ctx.Css "black"));
        Stroked (text half_typed_gradient) (ctx.Solid (ctx.Css "#000000"));
        Stroked (text half_typed_gradient) (ctx.Solid (ctx.Css "#FFFFFF"))]
  /\ thrown (downloadImage_host half_em_measure PI cos sin encode 0
                                hex_or_keyword half_typed_gradient
                                (initial_page Canvas))
     = Some "SyntaxError"
  /\ downloads
       (reached (downloadImage_host half_em_measure PI cos sin encode 0
                                    hex_or_keyword half_typed_gradient
                                    (initial_page Canvas)))
     = [].
Proof.
  unfold host_preview_ops, drawText_host, downloadImage_host,
    drawText_host_ctx, downloadImage_host_ctx, painted_on, initial_page,
    preview_canvas, export_canvas, canvas_with; simpl.
  unfold and_then, run, host_set_fillStyle, host_set_strokeStyle,
    host_set_shadowColor, host_addColorStop, taken_style, taken_color,
    parses_color, ctx.seq, ctx.when, ctx.clearRect, ctx.fillText,
    ctx.strokeText, ctx.paint, ctx.skip; simpl.
  replace (gt0 18) with true by (symmetry; apply gt0_true; lra).
  replace (gt0 8) with true by (symmetry; apply gt0_true; lra).
  simpl. repeat split; reflexivity.
Qed.

(** No text, no outline, no shadow, and a gradient whose start colour is
    the empty string: the render raises a [SyntaxError]. *)
Lemma cleared_gradient_colour_raises :
  text cleared_gradient_colour = ""
  /\ border1Width cleared_gradient_colour = 0
  /\ border2Width cleared_gradient_colour = 0
  /\ thrown (drawText_host half_em_measure PI cos sin hex_or_keyword
                           cleared_gradient_colour (Some preview_canvas))
     = Some "SyntaxError"
  /\ thrown (downloadImage_host half_em_measure PI cos sin encode 0
                                hex_or_keyword cleared_gradient_colour
                                (initial_page Canvas))
     = Some "SyntaxError".
Proof.
  unfold drawText_host, downloadImage_host, drawText_host_ctx,
    downloadImage_host_ctx, initial_page, preview_canvas, export_canvas,
    canvas_with; simpl.
  unfold and_then, run, host_set_fillStyle, host_set_strokeStyle,
    host_set_shadowColor, host_addColorStop, taken_style, taken_color,
    parses_color, ctx.seq, ctx.when, ctx.clearRect, ctx.fillText,
    ctx.strokeText, ctx.paint, ctx.skip; simpl.
  replace (gt0 0) with false by (symmetry; apply gt0_false; lra).
  simpl. repeat split; reflexivity.
Qed.

Lemma host_zero_inner_width_at_start :
  border1Width (setBorder1Width 0 initial_state) = 0
  /\ drawText_host half_em_measure PI cos sin hex_or_keyword
                   (setBorder1Width 0 initial_state) (Some preview_canvas)
     = drawText_host_omitting_inner_stroke half_em_measure PI cos sin
         hex_or_keyword (setBorder1Width 0 initial_state)
         (Some preview_canvas).
Proof.
  split; [reflexivity|].
  exact (proj1 (@host_zero_inner_width_omits_inner_stroke half_em_measure PI
                  cos sin Canvas encode 0 hex_or_keyword
                  (setBorder1Width 0 initial_state) eq_refl)
               (Some preview_canvas)).
Defined.

Lemma export_on_unmounted_page :
  no_export_surface unmounted_page
  /\ downloadImage half_em_measure PI cos sin encode 0 initial_state
                   unmounted_page
     = unmounted_page.
Proof.
  assert (missing : no_export_surface unmounted_page) by (left; reflexivity).
  split; [exact missing|].
  exact (proj1 (export_without_surface_does_nothing half_em_measure PI cos sin
                  encode 0 initial_state missing)).
Defined.

Lemma my_preset_is_saved :
  In my_preset (presets (savePreset (Some "mine") initial_state)).
Proof. simpl. do 4 right. left. reflexivity. Qed.

Lemma mine_is_a_name : "mine" <> "".
Proof. discriminate. Qed.

Lemma my_preset_keeps_text_and_font :
  text (loadPreset my_preset (setText "Hello" initial_state)) = "Hello"
  /\ fontSize (loadPreset my_preset (setText "Hello" initial_state)) = 120
  /\ fontFamily (loadPreset my_preset (setText "Hello" initial_state))
     = fontFamily initial_state.
Proof.
  exact (proj1 (saved_preset_keeps_text_and_font
                  initial_state (setText "Hello" initial_state)
                  my_preset mine_is_a_name my_preset_is_saved)).
Defined.

Local Abbreviation enumerated := [arial_regular; courier; arial_bold].

Lemma three_fonts_listed :
  uniqueFonts code_compare enumerated = [arial_bold; courier]
  /\ NoDup (map family (uniqueFonts code_compare enumerated))
  /\ last_occurrence_wins enumerated (uniqueFonts code_compare enumerated)
  /\ StronglySorted
       (fun a b => (code_compare (family a) (family b) <= 0)%Z)
       (uniqueFonts code_compare enumerated).
Proof.
  split; [reflexivity|].
  pose proof (uniqueFonts_last_occurrence_sorted
                code_compare code_compare_total code_compare_trans
                enumerated initial_state) as listed.
  cbv zeta in listed.
  destruct listed as (_ & distinct & _ & wins & sorted).
  split; [exact distinct|split; [exact wins|exact sorted]].
Defined.

(** * Further properties *)

(** ** Presets: what loads compose to *)

Lemma AppState_ext (s s' : AppState) :
  style_cells s = style_cells s' -> other_cells s = other_cells s' -> s = s'.
Proof.
  destruct s, s'; unfold style_cells, other_cells; simpl.
  intros style other. injection style. injection other. intros. subst.
  reflexivity.
Qed.

Ltac cell_by_cell :=
  apply AppState_ext; unfold style_cells, other_cells; simpl;
  repeat match goal with
         | |- (_, _) = (_, _) => apply f_equal2
         end.

Lemma loadPreset_laid_over (p : Preset) (s : AppState) :
  loadPreset p s = laid_over (config p) s.
Proof.
  unfold loadPreset; cbv zeta. cell_by_cell; read_cell.
Qed.

Ltac by_options :=
  repeat match goal with
         | |- context [overridden ?o _] => is_var o; destruct o
         end;
  simpl in *; congruence.

Lemma laid_over_twice (c : PresetConfig.t) (s : AppState) :
  laid_over c (laid_over c s) = laid_over c s.
Proof.
  destruct c; cell_by_cell; by_options.
Qed.

Lemma fully_defined_laid_over (c d : PresetConfig.t) (s : AppState) :
  fully_defined c = true -> laid_over c (laid_over d s) = laid_over c s.
Proof.
  destruct c as [c1 c2 c3 c4 c5 c6 c7 c8 c9 c10 c11 c12 c13 c14].
  unfold fully_defined; simpl.
  destruct c1; [|discriminate]; destruct c2; [|discriminate];
  destruct c3; [|discriminate]; destruct c4; [|discriminate];
  destruct c5; [|discriminate]; destruct c6; [|discriminate];
  destruct c7; [|discriminate]; destruct c8; [|discriminate];
  destruct c9; [|discriminate]; destruct c10; [|discriminate];
  destruct c11; [|discriminate]; destruct c12; [|discriminate];
  destruct c13; [|discriminate]; destruct c14; [|discriminate].
  intros _. cell_by_cell; reflexivity.
Qed.

(** X1. Loading the same preset a second time changes nothing. *)
Theorem loadPreset_idempotent :
  forall (p : Preset) (s : AppState),
    loadPreset p (loadPreset p s) = loadPreset p s.
Proof.
  intros p s. rewrite !loadPreset_laid_over. apply laid_over_twice.
Qed.

(** X2. A preset that defines all fourteen properties wipes out whatever
    an earlier load set: loading it after another preset gives the state
    that loading it alone gives. *)
Theorem full_preset_overrides_earlier_load :
  forall (p q : Preset) (s : AppState),
    fully_defined (config q) = true ->
    loadPreset q (loadPreset p s) = loadPreset q s.
Proof.
  intros p q s full. rewrite !loadPreset_laid_over.
  now apply fully_defined_laid_over.
Qed.

(** X3. Two presets that give the same value wherever both give one can
    be loaded in either order. *)
Theorem compatible_presets_commute :
  forall (p q : Preset) (s : AppState),
    compatible (config p) (config q) ->
    loadPreset p (loadPreset q s) = loadPreset q (loadPreset p s).
Proof.
  intros p q s. rewrite !loadPreset_laid_over.
  destruct (config p), (config q); unfold compatible, agree; simpl.
  intros (a1 & a2 & a3 & a4 & a5 & a6 & a7 & a8 & a9 & a10 & a11 & a12
          & a13 & a14).
  cell_by_cell; by_options.
Qed.

(** X4. Saving under a name and loading what was saved brings back the
    fourteen style cells as they were at the save, into whatever state the
    load finds, and leaves the other cells of that state alone; loaded
    straight after the save it changes nothing. *)
Theorem save_then_load_restores_style :
  forall (n : string) (s : AppState),
    n <> "" ->
    exists p,
      newest_preset (savePreset (Some n) s) = Some p
      /\ name p = n
      /\ fully_defined (config p) = true
      /\ (forall cur,
             style_cells (loadPreset p cur) = style_cells s
             /\ other_cells (loadPreset p cur) = other_cells cur)
      /\ loadPreset p (savePreset (Some n) s) = savePreset (Some n) s.
Proof.
  intros n s named. unfold newest_preset, savePreset.
  destruct (String.eqb_spec n ""); [contradiction|]. simpl.
  rewrite map_app; simpl. rewrite last_snoc.
  eexists; split; [reflexivity|]. simpl.
  split; [reflexivity|]. split; [reflexivity|]. split.
  - intros cur. split; reflexivity.
  - destruct s; reflexivity.
Qed.

(** X5. A save with no name, or an empty one, leaves the state as it was.
    A save under a name appends one preset of that name to the end of the
    list, keeps the presets already there (a name in use is not replaced),
    and changes no other cell. *)
Theorem savePreset_appends_or_does_nothing :
  forall (prompt : option string) (s : AppState),
    (style_cells (savePreset prompt s) = style_cells s
     /\ render_deps (savePreset prompt s) = render_deps s
     /\ font_cells (savePreset prompt s) = font_cells s)
    /\ savePreset None s = s
    /\ savePreset (Some "") s = s
    /\ forall n, prompt = Some n -> n <> "" ->
         exists p,
           presets (savePreset prompt s) = (presets s ++ [p])%list
           /\ name p = n.
Proof.
  intros prompt s.
  split; [|split; [reflexivity|split; [reflexivity|]]].
  - destruct prompt as [n|]; simpl; [|auto].
    destruct (String.eqb n ""); auto.
  - intros n -> named. unfold savePreset.
    destruct (String.eqb_spec n ""); [contradiction|]. simpl.
    eexists; split; reflexivity.
Qed.

(** ** Host fonts: loading and switching *)

Lemma NoDup_map_inj {A B} (f : A -> B) (l : list A) (x y : A) :
  NoDup (map f l) -> In x l -> In y l -> f x = f y -> x = y.
Proof.
  induction l as [|a l IH]; simpl; [intros _ []|].
  intros nd inx iny same. inversion nd as [|? ? fresh nd']; subst.
  destruct inx as [<-|inx], iny as [<-|iny]; auto.
  - exfalso. apply fresh. rewrite same. now apply in_map.
  - exfalso. apply fresh. rewrite <- same. now apply in_map.
Qed.

Lemma uniqueFonts_distinct (localeCompare : string -> string -> Z)
  (fonts : list LocalFont) :
  NoDup (map family (uniqueFonts localeCompare fonts)).
Proof.
  apply (Permutation_NoDup
           (l := map family (JsMap.values (font_map fonts)))).
  - apply Permutation_map, Permutation_sym, uniqueFonts_perm.
  - rewrite font_map_families. apply font_map_keys_distinct.
Qed.

Lemma uniqueFonts_In (localeCompare : string -> string -> Z)
  (fonts : list LocalFont) (x : LocalFont) :
  In x (uniqueFonts localeCompare fonts)
  <-> last_with_family (family x) fonts = Some x.
Proof.
  rewrite <- font_map_values. split; apply Permutation_in.
  - apply uniqueFonts_perm.
  - apply Permutation_sym, uniqueFonts_perm.
Qed.

Lemma last_with_family_In (f : string) (fonts : list LocalFont)
  (x : LocalFont) :
  last_with_family f fonts = Some x -> In x fonts /\ family x = f.
Proof.
  unfold last_with_family. intros found. apply find_some in found.
  destruct found as [listed same]. split.
  - now apply in_rev.
  - now apply String.eqb_eq.
Qed.

Section FontSwitch.
Variable localeCompare : string -> string -> Z.

(** X6. Whatever the host fonts, the list offered holds only fonts the
    host enumerated and is no longer than the enumeration; it is empty for
    an empty enumeration; and when the enumerated family names are all
    different it is a rearrangement of the enumeration: nothing is lost. *)
Theorem uniqueFonts_keeps_host_fonts :
  forall (availableFonts : list LocalFont),
    let out := uniqueFonts localeCompare availableFonts in
    (forall x, In x out -> In x availableFonts)
    /\ (List.length out <= List.length availableFonts)%nat
    /\ uniqueFonts localeCompare [] = []
    /\ (NoDup (map family availableFonts) -> Permutation out availableFonts).
Proof.
  intros fonts out.
  assert (sub : forall x, In x out -> In x fonts).
  { intros x listed. apply uniqueFonts_In in listed.
    now apply last_with_family_In in listed. }
  split; [exact sub|]. split; [|split; [reflexivity|]].
  - rewrite <- (length_map family out), <- (length_map family fonts).
    apply NoDup_incl_length; [apply uniqueFonts_distinct|].
    intros f listed. apply in_map_iff in listed as [x [<- listed]].
    apply in_map. now apply sub.
  - intros distinct. apply NoDup_Permutation.
    + eapply NoDup_map_inv. apply uniqueFonts_distinct.
    + eapply NoDup_map_inv. exact distinct.
    + intros x. split; [apply sub|]. intros listed.
      apply uniqueFonts_In.
      destruct (last_with_family (family x) fonts) as [y|] eqn:found.
      * apply last_with_family_In in found as [listed' same].
        f_equal. eapply NoDup_map_inj; eauto.
      * unfold last_with_family in found.
        apply in_rev in listed. apply (find_none _ _ found) in listed.
        rewrite String.eqb_refl in listed. discriminate.
Qed.

(** X7. [loadLocalFonts] writes the font cells only.  Without the host
    interface it does nothing.  With it, the loading flag is down when the
    call is over, whatever the outcome.  A rejected query raises an alert,
    falls back to the curated list and keeps the cached fonts and the
    selected family.  A resolved query raises none, shows the host list and
    selects its first family, or keeps the selection when the list is
    empty. *)
Theorem loadLocalFonts_outcomes :
  forall (query : option QueryResult) (s : AppState),
    let s' := fst (loadLocalFonts localeCompare query s) in
    let alert := snd (loadLocalFonts localeCompare query s) in
    non_font_cells s' = non_font_cells s
    /\ (query = None -> s' = s /\ alert = None)
    /\ (query <> None -> isLoadingFonts s' = false)
    /\ (forall errorName, query = Some (Rejected errorName) ->
          alert <> None /\ alert <> Some ""
          /\ fontSource s' = preset_fonts
          /\ localFonts s' = localFonts s
          /\ fontFamily s' = fontFamily s)
    /\ (forall availableFonts, query = Some (Resolved availableFonts) ->
          alert = None
          /\ fontSource s' = local_fonts
          /\ localFonts s' = uniqueFonts localeCompare availableFonts
          /\ fontFamily s'
             = match uniqueFonts localeCompare availableFonts with
               | first :: _ => family first
               | [] => fontFamily s
               end).
Proof.
  intros query s s' alert; subst s' alert.
  split; [|split; [|split; [|split]]].
  - destruct query as [[fonts|e]|]; simpl; try reflexivity.
    destruct (uniqueFonts localeCompare fonts); reflexivity.
  - intros ->. split; reflexivity.
  - destruct query as [[fonts|e]|]; simpl; [| |congruence]; intros _.
    + destruct (uniqueFonts localeCompare fonts); reflexivity.
    + reflexivity.
  - intros e ->. simpl.
    repeat split; try discriminate.
    destruct (String.eqb e "SecurityError"); [discriminate|].
    destruct (String.eqb e "NotAllowedError"); discriminate.
  - intros fonts ->. simpl.
    destruct (uniqueFonts localeCompare fonts); repeat split.
Qed.

Lemma first_preset_is_curated :
  match presetFonts with
  | first :: _ => In (FontItem.family first) curated_families
  | [] => False
  end.
Proof. left. reflexivity. Qed.

Lemma loadLocalFonts_keeps_offered (query : option QueryResult)
  (s : AppState) :
  localFonts s = [] ->
  selection_offered s ->
  selection_offered (fst (loadLocalFonts localeCompare query s)).
Proof.
  intros empty offered.
  assert (curated : In (fontFamily s) curated_families).
  { unfold selection_offered in offered. rewrite empty in offered.
    destruct (fontSource s); [exact offered|].
    destruct offered as [[_ ok]|[]]. exact ok. }
  destruct query as [[fonts|e]|]; simpl.
  - unfold selection_offered.
    destruct (uniqueFonts localeCompare fonts) as [|first rest]; simpl.
    + left. split; [reflexivity|exact curated].
    + right. left. reflexivity.
  - exact curated.
  - exact offered.
Qed.

(** X8. Switching the font source keeps the selected family among the
    fonts on offer, whichever source is asked for and whatever the host
    answers: a curated family under the curated list; under the host list
    one of its families, or a curated one when the host list is empty. *)
Theorem handleFontSourceChange_keeps_selection_offered :
  forall (source : FontSource) (query : option QueryResult) (s : AppState),
    selection_offered s ->
    selection_offered
      (fst (handleFontSourceChange localeCompare source query s))
    /\ non_font_cells
         (fst (handleFontSourceChange localeCompare source query s))
       = non_font_cells s.
Proof.
  intros source query s offered. unfold handleFontSourceChange.
  destruct source; simpl.
  - split; [|reflexivity]. unfold selection_offered; simpl.
    left. reflexivity.
  - destruct (localFonts s) as [|first rest] eqn:cached; simpl.
    + split; [now apply loadLocalFonts_keeps_offered|].
      destruct query as [[fonts|e]|]; simpl; try reflexivity.
      destruct (uniqueFonts localeCompare fonts); reflexivity.
    + split; [|reflexivity]. unfold selection_offered; simpl.
      rewrite cached. right. left. reflexivity.
Qed.

(** X9. The host is queried only when the host list is asked for and no
    host font is cached: asked for the curated list, or for the host list
    with fonts cached, the switch gives the same state whatever the host
    would answer, raises no alert, shows the source asked for and selects
    the first font of its list.  With nothing cached, a list the host
    resolved as empty included, asking for the host list is a fresh
    [loadLocalFonts]. *)
Theorem handleFontSourceChange_queries_only_uncached :
  forall (query query' : option QueryResult) (s : AppState),
    (handleFontSourceChange localeCompare preset_fonts query s
     = handleFontSourceChange localeCompare preset_fonts query' s
     /\ snd (handleFontSourceChange localeCompare preset_fonts query s) = None
     /\ fontSource
          (fst (handleFontSourceChange localeCompare preset_fonts query s))
        = preset_fonts
     /\ Some (fontFamily
          (fst (handleFontSourceChange localeCompare preset_fonts query s)))
        = option_map FontItem.family (head presetFonts))
    /\ (forall first rest, localFonts s = first :: rest ->
          handleFontSourceChange localeCompare local_fonts query s
          = handleFontSourceChange localeCompare local_fonts query' s
          /\ handleFontSourceChange localeCompare local_fonts query s
             = (setFontFamily (family first) (setFontSource local_fonts s),
                None))
    /\ (localFonts s = [] ->
        handleFontSourceChange localeCompare local_fonts query s
        = loadLocalFonts localeCompare query s).
Proof.
  intros query query' s. unfold handleFontSourceChange; simpl.
  split; [repeat split|split].
  - intros first rest ->. simpl. split; reflexivity.
  - intros ->. reflexivity.
Qed.

End FontSwitch.

(** ** Host fonts: the list of a list *)

Lemma set_absent {V} (k : string) (v : V) (m : JsMap.t V) :
  ~ In k (JsMap.keys m) -> JsMap.set k v m = (m ++ [(k, v)])%list.
Proof.
  unfold JsMap.keys. induction m as [|[k' v'] m IH]; simpl; intros absent.
  - reflexivity.
  - destruct (String.eqb_spec k' k) as [->|ne]; [tauto|].
    rewrite IH; [reflexivity|tauto].
Qed.

Lemma set_all_distinct {V} (entries : list (string * V)) :
  forall m,
    NoDup (JsMap.keys m ++ map fst entries) ->
    set_all entries m = (m ++ entries)%list.
Proof.
  unfold set_all.
  induction entries as [|[k v] entries IH]; simpl; intros m distinct.
  - now rewrite app_nil_r.
  - assert (absent : ~ In k (JsMap.keys m)).
    { intros listed. apply NoDup_remove_2 in distinct. apply distinct.
      apply in_or_app. now left. }
    rewrite set_absent by exact absent.
    rewrite IH.
    + rewrite <- app_assoc. reflexivity.
    + unfold JsMap.keys in *. rewrite map_app, <- app_assoc. exact distinct.
Qed.

Lemma font_map_of_distinct (fonts : list LocalFont) :
  NoDup (map family fonts) -> JsMap.values (font_map fonts) = fonts.
Proof.
  intros distinct. unfold font_map, JsMap.of_entries.
  change (JsMap.values (set_all (map font_entry fonts) []) = fonts).
  rewrite set_all_distinct.
  - simpl. unfold JsMap.values. rewrite map_map.
    rewrite <- (map_id fonts) at 2. apply map_ext.
    intros font. destruct font; reflexivity.
  - simpl. rewrite map_map. simpl. exact distinct.
Qed.

Lemma sort_of_sorted {A} (compare : A -> A -> Z) (l : list A) :
  StronglySorted (fun a b => (compare a b <= 0)%Z) l ->
  JsArray.sort compare l = l.
Proof.
  induction 1 as [|x l sorted IH below]; simpl; [reflexivity|].
  rewrite IH. destruct l as [|y l]; simpl; [reflexivity|].
  inversion below as [|? ? le _]; subst.
  destruct (Z.leb_spec (compare x y) 0); [reflexivity|lia].
Qed.

Section FontListAgain.
Variable localeCompare : string -> string -> Z.
Hypothesis localeCompare_total :
  forall a b, (0 < localeCompare a b)%Z -> (localeCompare b a <= 0)%Z.
Hypothesis localeCompare_trans :
  forall a b c, (localeCompare a b <= 0)%Z -> (localeCompare b c <= 0)%Z ->
                (localeCompare a c <= 0)%Z.

(** X10. Building the list again from the list already built gives the
    same list, for a [localeCompare] that is a consistent comparator. *)
Theorem uniqueFonts_idempotent :
  forall (availableFonts : list LocalFont),
    uniqueFonts localeCompare (uniqueFonts localeCompare availableFonts)
    = uniqueFonts localeCompare availableFonts.
Proof.
  intros fonts.
  set (out := uniqueFonts localeCompare fonts).
  unfold uniqueFonts at 1.
  change (JsArray.sort (fun a b => localeCompare (family a) (family b))
                       (JsMap.values (font_map out)) = out).
  rewrite font_map_of_distinct by apply uniqueFonts_distinct.
  apply sort_of_sorted. unfold out, uniqueFonts.
  apply (sort_sorted (fun a b => localeCompare (family a) (family b))).
  - intros a b. apply localeCompare_total.
  - intros a b c. apply localeCompare_trans.
Qed.

End FontListAgain.

(** ** File names *)

Lemma list_ascii_of_append (a b : string) :
  list_ascii_of_string (a ++ b)
  = (list_ascii_of_string a ++ list_ascii_of_string b)%list.
Proof.
  induction a as [|c a IH]; simpl; [reflexivity|]. now rewrite IH.
Qed.

Lemma append_cancel_r (a b tail : string) :
  (a ++ tail = b ++ tail)%string -> a = b.
Proof.
  intros same.
  apply (f_equal list_ascii_of_string) in same.
  rewrite !list_ascii_of_append in same.
  apply app_inv_tail in same.
  apply (f_equal string_of_list_ascii) in same.
  now rewrite !string_of_list_ascii_of_string in same.
Qed.

Lemma to_int_printable (z : Z) :
  Z.to_int z <> Decimal.Pos Decimal.Nil
  /\ Z.to_int z <> Decimal.Neg Decimal.Nil.
Proof.
  destruct z as [|p|p]; simpl; split; try discriminate;
    intros [= bad]; now apply (DecimalPos.Unsigned.to_uint_nonnil p).
Qed.

Lemma download_name_same (now now' : Z) :
  download_name now = download_name now' -> now = now'.
Proof.
  intros same. unfold download_name in same.
  simpl in same. injection same as same.
  apply append_cancel_r in same.
  apply (f_equal NilZero.int_of_string) in same.
  destruct (to_int_printable now) as [p n], (to_int_printable now') as [p' n'].
  rewrite !NilZero.isi in same by assumption.
  injection same as same.
  apply (f_equal Z.of_int) in same.
  now rewrite !DecimalZ.of_to in same.
Qed.

(** X11. Exports made at different readings of the clock get different
    file names. *)
Theorem download_names_differ :
  forall (now now' : Z), now <> now' -> download_name now <> download_name now'.
Proof.
  intros now now' differ same. apply differ. now apply download_name_same.
Qed.

(** ** The further properties at work *)

Lemma my_preset_overrides_black_outline :
  fully_defined (config my_preset) = true
  /\ loadPreset my_preset (loadPreset black_outline_preset initial_state)
     = loadPreset my_preset initial_state.
Proof.
  split; [reflexivity|].
  exact (full_preset_overrides_earlier_load black_outline_preset my_preset
           initial_state eq_refl).
Defined.

Lemma outline_and_shadow_compatible :
  compatible (config black_outline_preset) (config soft_shadow_preset).
Proof. unfold compatible, agree; simpl. repeat split. Qed.

Lemma outline_and_shadow_commute :
  loadPreset black_outline_preset (loadPreset soft_shadow_preset initial_state)
  = loadPreset soft_shadow_preset
      (loadPreset black_outline_preset initial_state).
Proof.
  exact (compatible_presets_commute black_outline_preset soft_shadow_preset
           initial_state outline_and_shadow_compatible).
Defined.

Lemma mine_saved_then_loaded :
  exists p,
    newest_preset (savePreset (Some "mine") initial_state) = Some p
    /\ name p = "mine"
    /\ fully_defined (config p) = true
    /\ (forall cur,
           style_cells (loadPreset p cur) = style_cells initial_state
           /\ other_cells (loadPreset p cur) = other_cells cur)
    /\ loadPreset p (savePreset (Some "mine") initial_state)
       = savePreset (Some "mine") initial_state.
Proof.
  exact (save_then_load_restores_style initial_state mine_is_a_name).
Defined.

Lemma initial_selection_offered : selection_offered initial_state.
Proof. left. reflexivity. Qed.

Lemma switch_to_host_fonts_from_start :
  selection_offered
    (fst (handleFontSourceChange code_compare local_fonts
            (Some (Resolved enumerated)) initial_state))
  /\ fontFamily
       (fst (handleFontSourceChange code_compare local_fonts
               (Some (Resolved enumerated)) initial_state))
     = "Arial".
Proof.
  split; [|reflexivity].
  exact (proj1 (handleFontSourceChange_keeps_selection_offered code_compare
                  local_fonts (Some (Resolved enumerated)) initial_state
                  initial_selection_offered)).
Defined.

Lemma three_fonts_listed_again :
  uniqueFonts code_compare (uniqueFonts code_compare enumerated)
  = uniqueFonts code_compare enumerated.
Proof.
  exact (uniqueFonts_idempotent code_compare code_compare_total
           code_compare_trans enumerated).
Defined.

Lemma one_is_not_two : 1%Z <> 2%Z.
Proof. discriminate. Qed.

Lemma names_at_one_and_two :
  download_name 1 = "decorated-text-1.png"
  /\ download_name 2 = "decorated-text-2.png"
  /\ download_name 1 <> download_name 2.
Proof.
  split; [reflexivity|split; [reflexivity|]].
  exact (download_names_differ one_is_not_two).
Defined.

Lemma tab_change_draws_the_same :
  (forall targetCanvas,
      drawText half_em_measure PI cos sin initial_state targetCanvas
      = drawText half_em_measure PI cos sin
          (setActiveTab "border" initial_state) targetCanvas)
  /\ (forall page,
         downloadImage half_em_measure PI cos sin encode 0 initial_state page
         = downloadImage half_em_measure PI cos sin encode 0
             (setActiveTab "border" initial_state) page).
Proof.
  exact (render_reads_only_its_dependencies half_em_measure PI cos sin encode
           0 (s := initial_state) (s' := setActiveTab "border" initial_state)
           eq_refl).
Defined.

Lemma eight_hundred_is_not_zero : 800%Z <> 0%Z.
Proof. discriminate. Qed.

Lemma export_onto_preview_sized_canvas :
  export_ops half_em_measure PI cos sin encode 0 initial_state preview_canvas
             800 450 ctx.fresh []
  = preview_ops half_em_measure PI cos sin initial_state 800 450 ctx.fresh.
Proof.
  exact (export_at_preview_width_is_preview half_em_measure PI cos sin encode
           0 initial_state preview_canvas 450 ctx.fresh [] eq_refl
           eight_hundred_is_not_zero).
Defined.

Lemma fresh_is_idle : shadow_idle (ctx.state ctx.fresh).
Proof. unfold shadow_idle; simpl. repeat split. right. reflexivity. Qed.

Lemma host_renders_from_fresh_stay_idle :
  hex_or_keyword "transparent" = true
  /\ shadow_idle (ctx.state ctx.fresh)
  /\ (forall (states : list AppState) (canvas : Canvas),
         shadow_idle
           (ctx.state
              (fold_left
                 (fun c s =>
                    reached (drawText_host_ctx half_em_measure PI cos sin
                                               hex_or_keyword s canvas c))
                 states ctx.fresh)))
  /\ shadow_pass_only (setShadowEnabled false initial_state) 800 450
       (host_preview_ops half_em_measure PI cos sin hex_or_keyword
                         (setShadowEnabled false initial_state) 800 450
                         ctx.fresh).
Proof.
  split; [reflexivity|]. split; [exact fresh_is_idle|]. split.
  - exact (proj1 (@no_render_leaks_a_shadow half_em_measure PI cos sin
                    Canvas encode 0 hex_or_keyword eq_refl ctx.fresh
                    fresh_is_idle)).
  - exact (proj1 (proj2 (proj2 (@no_render_leaks_a_shadow half_em_measure PI
                                  cos sin Canvas encode 0 hex_or_keyword
                                  eq_refl ctx.fresh fresh_is_idle)))
                 (setShadowEnabled false initial_state) 800%Z 450%Z).
Defined.

Lemma initial_paints_parse : paints_parse hex_or_keyword initial_state = true.
Proof.
  unfold paints_parse; simpl.
  replace (gt0 18) with true by (symmetry; apply gt0_true; lra).
  replace (gt0 8) with true by (symmetry; apply gt0_true; lra).
  reflexivity.
Qed.

Lemma initial_state_rerenders_the_same :
  paints_parse hex_or_keyword initial_state = true
  /\ map seen
         (host_preview_ops half_em_measure PI cos sin hex_or_keyword
            initial_state 800 450
            (previewed_on_host half_em_measure PI cos sin hex_or_keyword
                               initial_state 800 450 ctx.fresh))
     = map seen
           (host_preview_ops half_em_measure PI cos sin hex_or_keyword
                             initial_state 800 450 ctx.fresh).
Proof.
  split; [exact initial_paints_parse|].
  exact (proj1 (@host_rerender_repaints_the_same half_em_measure PI cos sin
                  Canvas encode 0 hex_or_keyword initial_state 800%Z 450%Z
                  ctx.fresh)
               initial_paints_parse).
Defined.
